(** * Meridian Energy usage sensor: the CSV-to-statistics update

    A shallow embedding of [MeridianEnergyUsageSensor.update]
    (custom_components/meridian_energy/sensor.py) and the properties of
    its row filter, channel classification and running sums.

    The embedding starts from the rows that [csv.reader] yields
    (a list of lists of strings; a blank line is the empty list) and ends
    at the three calls of [async_add_external_statistics]; the login and
    the download that precede the loop are the API client's.  Python
    exceptions are values of an error monad; floats are IEEE binary64
    numbers, given by the Standard Library's [SpecFloat]; strings are
    ASCII (in other text [float] and [strptime] also take the spaces and
    digits of Unicode, which are outside the model). *)

From Stdlib Require Import List String Ascii Bool Arith ZArith Lia Sorted.
From Stdlib Require Import SpecFloat.
Import ListNotations.

(** ** Python exceptions as an error monad *)

Inductive exn : Type :=
| IndexError
| ValueError
| OverflowError.

Inductive result (A : Type) : Type :=
| Ok (a : A)
| Raise (e : exn).

Arguments Ok {A} a.
Arguments Raise {A} e.

Definition bind {A B : Type} (c : result A) (k : A -> result B) : result B :=
  match c with
  | Ok a => k a
  | Raise e => Raise e
  end.

Declare Scope py_scope.
Delimit Scope py_scope with py.
Notation "x <- c ;; k" := (bind c (fun x => k))
  (at level 61, c at next level, right associativity) : py_scope.
Open Scope py_scope.

(** [row[i]] for a non-negative literal index. *)
Definition getitem (row : list string) (i : nat) : result string :=
  match nth_error row i with
  | Some s => Ok s
  | None => Raise IndexError
  end.

(** ** Characters *)

Definition is_digit (c : ascii) : bool :=
  let n := nat_of_ascii c in (48 <=? n) && (n <=? 57).

Definition digit_val (c : ascii) : nat := nat_of_ascii c - 48.

(** The ASCII characters that the class [\s] of a regular expression over
    text matches: those for which [str.isspace] holds, the separators
    28 to 31 among them. *)
Definition is_space (c : ascii) : bool :=
  let n := nat_of_ascii c in
  ((9 <=? n) && (n <=? 13)) || ((28 <=? n) && (n <=? 32)).

(** ** datetime *)

Module time.

Record t : Type := mk
  { hour : nat; minute : nat; second : nat; microsecond : nat }.

(** Naive times compare as the tuples (hour, minute, second, microsecond). *)
Definition ltb (a b : t) : bool :=
  (hour a <? hour b)
  || ((hour a =? hour b)
      && ((minute a <? minute b)
          || ((minute a =? minute b)
              && ((second a <? second b)
                  || ((second a =? second b)
                      && (microsecond a <? microsecond b)))))).

Definition geb (a b : t) : bool := negb (ltb a b).

End time.

Module datetime.

(** [tzinfo] is [None] for a naive datetime and the zone's name once
    localized; the UTC offset that pytz derives from the zone database is
    not part of the model. *)
Record t : Type := mk
  { year : nat; month : nat; day : nat;
    hour : nat; minute : nat; second : nat; microsecond : nat;
    tzinfo : option string }.

(** The years a [datetime] can hold. *)
Definition MINYEAR : nat := 1.
#[warnings="-abstract-large-number"]
Definition MAXYEAR : nat := 9999.

(** [dt.replace(minute=.., second=.., microsecond=..)] *)
Definition replace (dt : t) (minute' second' microsecond' : nat) : t :=
  mk (year dt) (month dt) (day dt) (hour dt)
     minute' second' microsecond' (tzinfo dt).

(** [dt.time()]: the wall-clock time, without tzinfo. *)
Definition time (dt : t) : time.t :=
  time.mk (hour dt) (minute dt) (second dt) (microsecond dt).

Definition is_leap (y : nat) : bool :=
  (y mod 4 =? 0) && (negb (y mod 100 =? 0) || (y mod 400 =? 0)).

Definition days_in_month (y m : nat) : nat :=
  match m with
  | 2 => if is_leap y then 29 else 28
  | 4 | 6 | 9 | 11 => 30
  | _ => 31
  end.

(** *** strptime

    [_strptime] turns the format into a regular expression, one group of
    ordered alternatives per directive, and takes the first match; a
    matcher here returns the candidate matches in that order. *)

Inductive directive : Type :=
| D_d | D_m | D_Y | D_H | D_M | D_S
| D_lit (c : ascii)
| D_spaces
| D_bad.

Fixpoint compile (fmt : list ascii) : list directive :=
  match fmt with
  | [] => []
  | "%"%char :: c :: rest =>
      (if Ascii.eqb c "d" then D_d
       else if Ascii.eqb c "m" then D_m
       else if Ascii.eqb c "Y" then D_Y
       else if Ascii.eqb c "H" then D_H
       else if Ascii.eqb c "M" then D_M
       else if Ascii.eqb c "S" then D_S
       else D_bad) :: compile rest
  | c :: rest =>
      if is_space c then
        match compile rest with
        | D_spaces :: ds => D_spaces :: ds
        | ds => D_spaces :: ds
        end
      else (if Ascii.eqb c "%" then D_bad else D_lit c) :: compile rest
  end.

Definition take2 (P : nat -> nat -> bool) (cs : list ascii)
  : list (nat * list ascii) :=
  match cs with
  | a :: b :: rest =>
      if is_digit a && is_digit b && P (digit_val a) (digit_val b)
      then [(10 * digit_val a + digit_val b, rest)] else []
  | _ => []
  end.

Definition take1 (P : nat -> bool) (cs : list ascii)
  : list (nat * list ascii) :=
  match cs with
  | a :: rest =>
      if is_digit a && P (digit_val a) then [(digit_val a, rest)] else []
  | _ => []
  end.

Definition take4 (cs : list ascii) : list (nat * list ascii) :=
  match cs with
  | a :: b :: c :: d :: rest =>
      if is_digit a && is_digit b && is_digit c && is_digit d
      then [(1000 * digit_val a + 100 * digit_val b
             + 10 * digit_val c + digit_val d, rest)]
      else []
  | _ => []
  end.

(** [\s+], greedy: the longest run first, then shorter ones. *)
Fixpoint spaces1 (cs : list ascii) : list (list ascii) :=
  match cs with
  | c :: rest => if is_space c then spaces1 rest ++ [rest] else []
  | [] => []
  end.

Record fields : Type := mkf
  { f_Y : nat; f_m : nat; f_d : nat; f_H : nat; f_M : nat; f_S : nat }.

Definition step (d : directive) (st : fields * list ascii)
  : list (fields * list ascii) :=
  let '(f, cs) := st in
  match d with
  | D_d =>
      map (fun '(v, r) => (mkf (f_Y f) (f_m f) v (f_H f) (f_M f) (f_S f), r))
        (take2 (fun a b => (a =? 3) && (b <=? 1)) cs
         ++ take2 (fun a _ => (1 <=? a) && (a <=? 2)) cs
         ++ take2 (fun a b => (a =? 0) && (1 <=? b)) cs
         ++ take1 (fun a => 1 <=? a) cs
         ++ match cs with
            | " "%char :: r => take1 (fun a => 1 <=? a) r
            | _ => []
            end)
  | D_m =>
      map (fun '(v, r) => (mkf (f_Y f) v (f_d f) (f_H f) (f_M f) (f_S f), r))
        (take2 (fun a b => (a =? 1) && (b <=? 2)) cs
         ++ take2 (fun a b => (a =? 0) && (1 <=? b)) cs
         ++ take1 (fun a => 1 <=? a) cs)
  | D_Y =>
      map (fun '(v, r) => (mkf v (f_m f) (f_d f) (f_H f) (f_M f) (f_S f), r))
        (take4 cs)
  | D_H =>
      map (fun '(v, r) => (mkf (f_Y f) (f_m f) (f_d f) v (f_M f) (f_S f), r))
        (take2 (fun a b => (a =? 2) && (b <=? 3)) cs
         ++ take2 (fun a _ => a <=? 1) cs
         ++ take1 (fun _ => true) cs)
  | D_M =>
      map (fun '(v, r) => (mkf (f_Y f) (f_m f) (f_d f) (f_H f) v (f_S f), r))
        (take2 (fun a _ => a <=? 5) cs ++ take1 (fun _ => true) cs)
  | D_S =>
      map (fun '(v, r) => (mkf (f_Y f) (f_m f) (f_d f) (f_H f) (f_M f) v, r))
        (take2 (fun a b => (a =? 6) && (b <=? 1)) cs
         ++ take2 (fun a _ => a <=? 5) cs
         ++ take1 (fun _ => true) cs)
  | D_lit c =>
      match cs with
      | c' :: r => if Ascii.eqb c c' then [(f, r)] else []
      | [] => []
      end
  | D_spaces => map (fun r => (f, r)) (spaces1 cs)
  | D_bad => []
  end.

Fixpoint run (ds : list directive) (st : fields * list ascii)
  : list (fields * list ascii) :=
  match ds with
  | [] => [st]
  | d :: ds' => flat_map (run ds') (step d st)
  end.

(** [datetime.strptime(date_string, format)].  The first match of the
    format's expression must end where the string ends, and the fields
    must form a date and time that the [datetime] constructor accepts. *)
Definition strptime (date_string format : string) : result t :=
  let ds := compile (list_ascii_of_string format) in
  if existsb (fun d => match d with D_bad => true | _ => false end) ds
  then Raise ValueError
  else
    match run ds (mkf 1900 1 1 0 0 0, list_ascii_of_string date_string) with
    | (f, []) :: _ =>
        if (1 <=? f_Y f) && (1 <=? f_d f)
           && (f_d f <=? days_in_month (f_Y f) (f_m f))
           && (f_S f <=? 59)
        then Ok (mk (f_Y f) (f_m f) (f_d f) (f_H f) (f_M f) (f_S f) 0 None)
        else Raise ValueError
    | _ => Raise ValueError
    end.

End datetime.

(** ** pytz *)

Module pytz.

Definition timezone (zone : string) : string := zone.

(** The wall-clock fields of [dt] with the zone attached: what
    [tz.localize(dt)] returns when it returns. *)
Definition with_zone (tz : string) (dt : datetime.t) : datetime.t :=
  datetime.mk (datetime.year dt) (datetime.month dt) (datetime.day dt)
    (datetime.hour dt) (datetime.minute dt) (datetime.second dt)
    (datetime.microsecond dt) (Some tz).

(** [dt + timedelta(days=-1)] leaves the range of [datetime] when [dt]
    is on its first day, 1 January of year 1. *)
Definition day_before_overflows (dt : datetime.t) : bool :=
  (datetime.year dt =? datetime.MINYEAR) && (datetime.month dt =? 1)
  && (datetime.day dt =? 1).

(** [dt + timedelta(days=1)] leaves the range of [datetime] when [dt] is
    on its last day, 31 December of year 9999. *)
Definition day_after_overflows (dt : datetime.t) : bool :=
  (datetime.year dt =? datetime.MAXYEAR) && (datetime.month dt =? 12)
  && (datetime.day dt =? 31).

Definition overflows (dt : datetime.t) : bool :=
  day_before_overflows dt || day_after_overflows dt.

(** [tz.localize(dt)], with [is_dst=False].  To find the offset that is
    in force, [localize] first looks up the transitions around [dt - 1
    day] and [dt + 1 day]; either sum raises OverflowError when it leaves
    the range of [datetime].  Otherwise the wall-clock fields come back
    with the zone attached (a time that a transition skips or repeats is
    given its standard-time reading and is not refused). *)
Definition localize (tz : string) (dt : datetime.t) : result datetime.t :=
  if day_before_overflows dt then Raise OverflowError
  else if day_after_overflows dt then Raise OverflowError
  else Ok (with_zone tz dt).

End pytz.

(** ** float

    A Python float is an IEEE 754 binary64 number: [spec_float] at
    precision 53 and maximal exponent 1024, with the Standard Library's
    round-to-nearest-even operations. *)

Module float.

Definition prec : Z := 53.
Definition emax : Z := 1024.

Definition t : Type := spec_float.

(** [0.0], which is also what the int [0] becomes in [0 + x]. *)
Definition zero : t := S754_zero false.

Definition add (x y : t) : t := SFadd prec emax x y.

(** [x <= y] *)
Definition leb (x y : t) : bool := SFleb x y.

Definition valid (x : t) : bool := valid_binary prec emax x.

(** The nearest binary64 number to [(-1)^s * m * 10^e10] (ties to even).
    A negative [e10] divides with enough extra quotient bits, and a sticky
    bit for the remainder, that one rounding gives the nearest number. *)
Definition of_decimal (s : bool) (m : N) (e10 : Z) : t :=
  match m with
  | N0 => S754_zero s
  | Npos p =>
      match e10 with
      | Zneg k =>
          let den := Z.pow_pos 10 k in
          let sh := Z.max 0 (prec + 2 + Z.log2 den - Z.log2 (Zpos p)) in
          let '(q, r) := Z.div_eucl (Z.shiftl (Zpos p) sh) den in
          match (2 * q + (if Z.eqb r 0 then 0 else 1))%Z with
          | Zpos mz => binary_round prec emax s mz (- sh - 1)
          | _ => S754_zero s
          end
      | _ => binary_round prec emax s (p * Z.to_pos (10 ^ e10)) 0
      end
  end.

(** What [float] strips from both ends of an ASCII string: the
    characters of C's [isspace], and not the separators 28 to 31. *)
Definition is_space (c : ascii) : bool :=
  let n := nat_of_ascii c in ((9 <=? n) && (n <=? 13)) || (n =? 32).

Fixpoint lstrip (cs : list ascii) : list ascii :=
  match cs with
  | c :: r => if is_space c then lstrip r else cs
  | [] => []
  end.

Definition strip (cs : list ascii) : list ascii :=
  rev (lstrip (rev (lstrip cs))).

Definition lower (c : ascii) : ascii :=
  let n := nat_of_ascii c in
  if (65 <=? n) && (n <=? 90) then ascii_of_nat (n + 32) else c.

Definition sign (cs : list ascii) : bool * list ascii :=
  match cs with
  | "-"%char :: r => (true, r)
  | "+"%char :: r => (false, r)
  | _ => (false, cs)
  end.

(** The rest of a digitpart, [(["_"] digit)*]: the value and the number of
    digits read so far, and what follows. *)
Fixpoint digits_tail (cs : list ascii) (v : N) (n : nat)
  : N * nat * list ascii :=
  match cs with
  | c :: r =>
      if is_digit c
      then digits_tail r (10 * v + N.of_nat (digit_val c))%N (S n)
      else if Ascii.eqb c "_" then
        match r with
        | d :: r' =>
            if is_digit d
            then digits_tail r' (10 * v + N.of_nat (digit_val d))%N (S n)
            else (v, n, cs)
        | [] => (v, n, cs)
        end
      else (v, n, cs)
  | [] => (v, n, [])
  end.

(** [digitpart ::= digit (["_"] digit)*], continuing the value [v]. *)
Definition digitpart (cs : list ascii) (v : N)
  : option (N * nat * list ascii) :=
  match cs with
  | c :: r =>
      if is_digit c
      then Some (digits_tail r (10 * v + N.of_nat (digit_val c))%N 1)
      else None
  | [] => None
  end.

(** [number ::= [digitpart] "." digitpart | digitpart ["."]]: the digits
    as one integer and the number of those after the point. *)
Definition number (cs : list ascii) : option (N * nat * list ascii) :=
  match digitpart cs 0 with
  | Some (v, _, "."%char :: r) =>
      match digitpart r v with
      | Some (v', n, r') => Some (v', n, r')
      | None => Some (v, 0, r)
      end
  | Some (v, _, r) => Some (v, 0, r)
  | None =>
      match cs with
      | "."%char :: r => digitpart r 0
      | _ => None
      end
  end.

(** [exponent ::= ("e" | "E") [sign] digitpart], or nothing. *)
Definition exponent (cs : list ascii) : option (Z * list ascii) :=
  match cs with
  | [] => Some (0%Z, [])
  | c :: r =>
      if Ascii.eqb (lower c) "e" then
        let '(neg, r1) := sign r in
        match digitpart r1 0 with
        | Some (v, _, r2) =>
            Some ((if neg then - Z.of_N v else Z.of_N v)%Z, r2)
        | None => None
        end
      else Some (0%Z, cs)
  end.

(** [float(x)] for a string [x]. *)
Definition of_string (x : string) : result t :=
  let '(s, cs) := sign (strip (list_ascii_of_string x)) in
  let name := string_of_list_ascii (map lower cs) in
  if String.eqb name "inf" || String.eqb name "infinity"
  then Ok (S754_infinity s)
  else if String.eqb name "nan" then Ok S754_nan
  else
    match number cs with
    | Some (m, nfrac, r) =>
        match exponent r with
        | Some (e, []) => Ok (of_decimal s m (e - Z.of_nat nfrac))
        | _ => Raise ValueError
        end
    | None => Raise ValueError
    end.

End float.

(** ** Home Assistant's recorder types *)

Module StatisticData.

Record t : Type := mk { start : datetime.t; sum : float.t }.

End StatisticData.

Inductive UnitOfEnergy : Type :=
| WATT_HOUR
| KILO_WATT_HOUR
| MEGA_WATT_HOUR.

Module StatisticMetaData.

Record t : Type := mk
  { has_mean : bool;
    has_sum : bool;
    name : string;
    source : string;
    statistic_id : string;
    unit_of_measurement : UnitOfEnergy }.

End StatisticMetaData.

(** The statistics sink: the recorder keeps the calls it received, in
    order. *)
Definition recorder : Type :=
  list (StatisticMetaData.t * list StatisticData.t).

Definition async_add_external_statistics (hass : recorder)
  (metadata : StatisticMetaData.t) (statistics : list StatisticData.t)
  : recorder :=
  hass ++ [(metadata, statistics)].

(** ** update: the loop over the rows *)

(** The six accumulators that [update] declares before the loop. *)
Record locals : Type := mk_locals
  { solarStatistics : list StatisticData.t;
    solarRunningSum : float.t;
    dayStatistics : list StatisticData.t;
    dayRunningSum : float.t;
    nightStatistics : list StatisticData.t;
    nightRunningSum : float.t }.

Definition initial : locals :=
  mk_locals [] float.zero [] float.zero [] float.zero.

(** How one pass through the loop body ends: [Continue] for [continue] and
    for reaching the end of the body, [Break] for [break]. *)
Inductive control : Type :=
| Continue
| Break.

Open Scope string_scope.

(** The body of [for row in csv_file], lines 129 to 205.  The test for
    "DET" only writes to the log, like the other logging calls it is left
    out. *)
Definition loop_body (st : locals) (row : list string)
  : result (control * locals) :=
  if (List.length row <? 2)%nat then Ok (Break, st)
  else
    record_type <- getitem row 0 ;;
    if String.eqb record_type "HDR" then Ok (Continue, st)
    else
      energy_flow_direction <- getitem row 6 ;;
      read_status <- getitem row 11 ;;
      if negb (String.eqb read_status "RD") then Ok (Continue, st)
      else
        read_period_start_date_time <- getitem row 9 ;;
        let tz := pytz.timezone "Pacific/Auckland" in
        start_date <-
          datetime.strptime read_period_start_date_time "%d/%m/%Y %H:%M:%S" ;;
        if (datetime.minute start_date =? 59)%nat then Ok (Continue, st)
        else
          start_date <- pytz.localize tz start_date ;;
          let rounded_date := datetime.replace start_date 0 0 0 in
          unit_quantity_active_energy_volume <- getitem row 12 ;;
          if String.eqb energy_flow_direction "I" then
            q <- float.of_string unit_quantity_active_energy_volume ;;
            let solarRunningSum := float.add (solarRunningSum st) q in
            Ok (Continue,
                mk_locals
                  (solarStatistics st
                   ++ [StatisticData.mk rounded_date solarRunningSum])
                  solarRunningSum
                  (dayStatistics st) (dayRunningSum st)
                  (nightStatistics st) (nightRunningSum st))
          else
            night <-
              (from <- datetime.strptime "21:00" "%H:%M" ;;
               if time.geb (datetime.time rounded_date) (datetime.time from)
               then Ok true
               else
                 till <- datetime.strptime "07:00" "%H:%M" ;;
                 Ok (time.ltb (datetime.time rounded_date)
                       (datetime.time till))) ;;
            if (night : bool) then
              q <- float.of_string unit_quantity_active_energy_volume ;;
              let nightRunningSum := float.add (nightRunningSum st) q in
              Ok (Continue,
                  mk_locals
                    (solarStatistics st) (solarRunningSum st)
                    (dayStatistics st) (dayRunningSum st)
                    (nightStatistics st
                     ++ [StatisticData.mk rounded_date nightRunningSum])
                    nightRunningSum)
            else
              q <- float.of_string unit_quantity_active_energy_volume ;;
              let dayRunningSum := float.add (dayRunningSum st) q in
              Ok (Continue,
                  mk_locals
                    (solarStatistics st) (solarRunningSum st)
                    (dayStatistics st
                     ++ [StatisticData.mk rounded_date dayRunningSum])
                    dayRunningSum
                    (nightStatistics st) (nightRunningSum st)).

(** [for row in csv_file: ...], from the accumulators [st]: the
    accumulators when the loop ends, by exhaustion or by [break]. *)
Fixpoint for_rows (st : locals) (csv_file : list (list string))
  : result locals :=
  match csv_file with
  | [] => Ok st
  | row :: rest =>
      match loop_body st row with
      | Raise e => Raise e
      | Ok (Break, st') => Ok st'
      | Ok (Continue, st') => for_rows st' rest
      end
  end.

(** ** update: handing the series to the recorder *)

Section Update.

(** [DOMAIN] and [SENSOR_NAME] are imported from the component's
    [const] module. *)
Variables DOMAIN SENSOR_NAME : string.

Definition solarMetadata : StatisticMetaData.t :=
  StatisticMetaData.mk false true
    (SENSOR_NAME ++ " (Solar Export)") DOMAIN
    (DOMAIN ++ ":return_to_grid") KILO_WATT_HOUR.

Definition dayMetadata : StatisticMetaData.t :=
  StatisticMetaData.mk false true
    (SENSOR_NAME ++ " (Day)") DOMAIN
    (DOMAIN ++ ":consumption_day") KILO_WATT_HOUR.

Definition nightMetadata : StatisticMetaData.t :=
  StatisticMetaData.mk false true
    (SENSOR_NAME ++ " (Night)") DOMAIN
    (DOMAIN ++ ":consumption_night") KILO_WATT_HOUR.

(** [update], from the rows of the downloaded document on: the recorder
    afterwards, and whether the call returned or raised. *)
Definition update (hass : recorder) (csv_file : list (list string))
  : recorder * result unit :=
  match for_rows initial csv_file with
  | Raise e => (hass, Raise e)
  | Ok st =>
      let hass :=
        async_add_external_statistics hass solarMetadata
          (solarStatistics st) in
      let hass :=
        async_add_external_statistics hass dayMetadata (dayStatistics st) in
      let hass :=
        async_add_external_statistics hass nightMetadata
          (nightStatistics st) in
      (hass, Ok tt)
  end.

End Update.

(** * Vocabulary of the specification *)

Inductive channel : Type :=
| Solar
| Day
| Night.

Definition series (ch : channel) (st : locals) : list StatisticData.t :=
  match ch with
  | Solar => solarStatistics st
  | Day => dayStatistics st
  | Night => nightStatistics st
  end.

Definition running_sum (ch : channel) (st : locals) : float.t :=
  match ch with
  | Solar => solarRunningSum st
  | Day => dayRunningSum st
  | Night => nightRunningSum st
  end.

(** The bucket of a parsed timestamp: its hour in Pacific/Auckland. *)
Definition bucket (dt : datetime.t) : datetime.t :=
  datetime.replace (pytz.with_zone (pytz.timezone "Pacific/Auckland") dt) 0 0 0.

(** The channel's running sum advanced by [q], and one point appended to
    its series; the other two channels untouched. *)
Definition accumulate (ch : channel) (start : datetime.t) (q : float.t)
  (st : locals) : locals :=
  let total := float.add (running_sum ch st) q in
  let point := StatisticData.mk start total in
  match ch with
  | Solar =>
      mk_locals (solarStatistics st ++ [point]) total
        (dayStatistics st) (dayRunningSum st)
        (nightStatistics st) (nightRunningSum st)
  | Day =>
      mk_locals (solarStatistics st) (solarRunningSum st)
        (dayStatistics st ++ [point]) total
        (nightStatistics st) (nightRunningSum st)
  | Night =>
      mk_locals (solarStatistics st) (solarRunningSum st)
        (dayStatistics st) (dayRunningSum st)
        (nightStatistics st ++ [point]) total
  end.

(** Night-rate hours: [21:00, 24:00) and [00:00, 07:00). *)
Definition night_hours (h : nat) : bool := ((21 <=? h) || (h <? 7))%nat.

(** The classification rule of the specification. *)
Definition channel_of (energy_flow_direction : string) (h : nat) : channel :=
  if String.eqb energy_flow_direction "I" then Solar
  else if night_hours h then Night else Day.

(** A row that passes every filter of the loop body: not a header, its
    fields up to index 12 present, read status "RD", and a timestamp
    [dt] whose minute is not 59. *)
Definition accepted (row : list string) (dt : datetime.t) : Prop :=
  13 <= List.length row
  /\ nth_error row 0 <> Some "HDR"
  /\ nth_error row 11 = Some "RD"
  /\ (exists ts, nth_error row 9 = Some ts
                 /\ datetime.strptime ts "%d/%m/%Y %H:%M:%S" = Ok dt)
  /\ datetime.minute dt <> 59.

(** [float(row[12])] *)
Definition quantity (row : list string) : result float.t :=
  s <- getitem row 12 ;; float.of_string s.

(** [0 <= q] *)
Definition nonneg (q : float.t) : Prop := float.leb float.zero q = true.

(** The cumulative sum of the last point of a series, [0] for none. *)
Definition last_sum (l : list StatisticData.t) : float.t :=
  last (map StatisticData.sum l) float.zero.

(** A row that reads a field it does not have: a data row of two to
    eleven fields, or one of twelve fields that passes the status and
    minute filters, is localized, and so reaches [row[12]]. *)
Definition reads_missing_field (row : list string) : Prop :=
  2 <= List.length row
  /\ nth_error row 0 <> Some "HDR"
  /\ (List.length row < 12
      \/ (List.length row = 12
          /\ nth_error row 11 = Some "RD"
          /\ exists ts dt,
               nth_error row 9 = Some ts
               /\ datetime.strptime ts "%d/%m/%Y %H:%M:%S" = Ok dt
               /\ datetime.minute dt <> 59
               /\ pytz.overflows dt = false)).

(** ** Invariants of the loop *)

(** [x <= y] on floats, as a relation. *)
Definition le (x y : float.t) : Prop := float.leb x y = true.

Definition sums (l : list StatisticData.t) : list float.t :=
  map StatisticData.sum l.

(** What the loop maintains for a channel when the quantities it adds are
    not negative: the cumulative sums, after the initial 0, never
    decrease, and the running sum is a binary64 number that is not
    negative. *)
Definition chain (ch : channel) (st : locals) : Prop :=
  Sorted le (float.zero :: sums (series ch st))
  /\ float.valid (running_sum ch st) = true
  /\ nonneg (running_sum ch st).

(** Every running sum is the sum of the last point of its series. *)
Definition consistent (st : locals) : Prop :=
  forall ch, running_sum ch st = last_sum (series ch st).

Definition channel_eqb (a b : channel) : bool :=
  match a, b with
  | Solar, Solar | Day, Day | Night, Night => true
  | _, _ => false
  end.

(** The exponent that binary64 gives a number whose leading digit has
    weight [2 ^ (e - 1)]. *)
Definition fexp64 (e : Z) : Z := fexp float.prec float.emax e.

(** Checking [accepted] on a concrete row. *)
Ltac accepted_row :=
  unfold accepted; repeat split;
  try (cbn; lia); try (cbn; congruence);
  try (eexists; split; [reflexivity | vm_compute; reflexivity]).

(** ** Sample documents *)

(** A detail record in the EIEP 13A layout: thirteen fields, with the
    flow direction at index 6, the start of the read period at 9, the
    read status at 11 and the energy volume at 12. *)
Definition det (flow start status volume : string) : list string :=
  ["DET"; "AUTH01"; "0000123456AB1C2"; "000"; "NZDT"; "210123456";
   flow; "UN"; "24"; start; "15/03/2023 23:59:59"; status; volume].

Definition hdr : list string :=
  ["HDR"; "ICPCONS"; "1.0"; "MERI"; "MERI"; "CUST"; "16/03/2023";
   "04:00:00"; "0000000001"; "4"; "15/03/2023"; "15/03/2023"; "Y"].

Definition at_hour (h : nat) : datetime.t :=
  datetime.mk 2023 3 15 h 0 0 0 (Some "Pacific/Auckland").

Definition f1_5 : float.t := S754_finite false 6755399441055744 (-52).
Definition f2_0 : float.t := S754_finite false 4503599627370496 (-51).
Definition f1_0 : float.t := S754_finite false 4503599627370496 (-52).
Definition f3_5 : float.t := S754_finite false 7881299347898368 (-51).

Definition day_row : list string := det "E" "15/03/2023 10:30:00" "RD" "1.5".
Definition night_row : list string := det "E" "15/03/2023 22:15:00" "RD" "1.5".
Definition solar_row : list string := det "I" "15/03/2023 22:15:00" "RD" "2.0".

Definition blank : list string := [].
Definition short_hdr : list string := ["HDR"; "ICPCONS"].
Definition short_det : list string := ["DET"; "AUTH01"; "0000123456AB1C2"].

Definition summary_row : list string :=
  det "E" "15/03/2023 23:59:00" "RD" "24.0".
Definition estimate_row : list string :=
  det "E" "15/03/2023 11:30:00" "EST" "1.0".

Definition bad_quantity_row : list string :=
  det "E" "15/03/2023 12:30:00" "RD" "n/a".
Definition twelve_fields_estimate : list string :=
  ["DET"; "AUTH01"; "0000123456AB1C2"; "000"; "NZDT"; "210123456";
   "E"; "UN"; "24"; "15/03/2023 11:30:00"; "15/03/2023 11:59:59"; "EST"].

(** Rows stamped on the first and on the last day that [datetime] holds. *)
Definition first_day_row : list string :=
  det "E" "01/01/0001 00:00:00" "RD" "1.5".
Definition last_day_row : list string :=
  det "I" "31/12/9999 10:30:00" "RD" "1.5".
Definition first_day_bad_quantity : list string :=
  det "E" "01/01/0001 00:00:00" "RD" "n/a".
Definition twelve_fields_first_day : list string :=
  ["DET"; "AUTH01"; "0000123456AB1C2"; "000"; "NZDT"; "210123456";
   "E"; "UN"; "24"; "01/01/0001 00:00:00"; "01/01/0001 00:59:59"; "RD"].

Definition day_row_a : list string := det "E" "15/03/2023 10:00:00" "RD" "1.0".
Definition day_row_b : list string := det "E" "15/03/2023 10:30:00" "RD" "2.5".

Definition sample_document : list (list string) :=
  [hdr; day_row_a; estimate_row; day_row_b; night_row; solar_row;
   summary_row].

Definition sample_recorder : recorder :=
  [(solarMetadata "meridian_energy" "Meridian Energy",
    [StatisticData.mk (at_hour 22) f2_0]);
   (dayMetadata "meridian_energy" "Meridian Energy",
    [StatisticData.mk (at_hour 10) f1_0;
     StatisticData.mk (at_hour 10) f3_5]);
   (nightMetadata "meridian_energy" "Meridian Energy",
    [StatisticData.mk (at_hour 22) f1_5])].

(** ** Vocabulary of the further properties *)

(** What one pass does with a row, whatever the accumulators hold. *)
Inductive effect : Type :=
| Stops
| Skips
| Fails (e : exn)
| Adds (ch : channel) (start : datetime.t) (q : float.t).

Definition apply_effect (f : effect) (st : locals)
  : result (control * locals) :=
  match f with
  | Stops => Ok (Break, st)
  | Skips => Ok (Continue, st)
  | Fails e => Raise e
  | Adds ch start q => Ok (Continue, accumulate ch start q st)
  end.

(** Two states of the accumulators that hold the same for a channel. *)
Definition agree (ch : channel) (st1 st2 : locals) : Prop :=
  series ch st1 = series ch st2 /\ running_sum ch st1 = running_sum ch st2.

(** A point that starts at a full hour of Pacific/Auckland. *)
Definition on_the_hour (p : StatisticData.t) : Prop :=
  datetime.minute (StatisticData.start p) = 0
  /\ datetime.second (StatisticData.start p) = 0
  /\ datetime.microsecond (StatisticData.start p) = 0
  /\ datetime.tzinfo (StatisticData.start p) = Some "Pacific/Auckland".

(** The hours a channel's points may start at. *)
Definition in_rate_hours (ch : channel) (p : StatisticData.t) : Prop :=
  match ch with
  | Solar => True
  | Day => 7 <= datetime.hour (StatisticData.start p) < 21
  | Night => 21 <= datetime.hour (StatisticData.start p)
             \/ datetime.hour (StatisticData.start p) < 7
  end.

(** What [update] adds to the recorder when the loop ends in [st]. *)
Definition emitted (DOMAIN SENSOR_NAME : string) (st : locals) : recorder :=
  [(solarMetadata DOMAIN SENSOR_NAME, series Solar st);
   (dayMetadata DOMAIN SENSOR_NAME, series Day st);
   (nightMetadata DOMAIN SENSOR_NAME, series Night st)].

Definition iso_timestamp_row : list string :=
  ["DET"; "AUTH01"; "0000123456AB1C2"; "000"; "NZDT"; "210123456";
   "E"; "UN"; "24"; "2023-03-15 11:00:00"; "2023-03-15 11:59:59"; "RD"].

Definition nan_row : list string :=
  det "E" "15/03/2023 11:00:00" "RD" "nan".

(** The points that a channel draws from the rows of a document, from
    the running sum [s] on: nothing after a row of fewer than two fields,
    nothing from a row that is not an accepted row of the channel, and
    from an accepted row of the channel one point, at its bucket and with
    the running sum advanced by its quantity. *)
Inductive drawn (ch : channel)
  : list (list string) -> float.t -> list StatisticData.t -> Prop :=
| drawn_end (s : float.t) : drawn ch [] s []
| drawn_stop (row : list string) (rows : list (list string)) (s : float.t) :
    List.length row < 2 -> drawn ch (row :: rows) s []
| drawn_skip (row : list string) (rows : list (list string)) (s : float.t)
    (l : list StatisticData.t) :
    2 <= List.length row ->
    (forall dt flow,
        accepted row dt -> nth_error row 6 = Some flow ->
        channel_of flow (datetime.hour dt) <> ch) ->
    drawn ch rows s l ->
    drawn ch (row :: rows) s l
| drawn_take (row : list string) (rows : list (list string)) (s : float.t)
    (l : list StatisticData.t) (dt : datetime.t) (flow : string)
    (q : float.t) :
    accepted row dt -> nth_error row 6 = Some flow ->
    channel_of flow (datetime.hour dt) = ch ->
    quantity row = Ok q ->
    drawn ch rows (float.add s q) l ->
    drawn ch (row :: rows) s
      (StatisticData.mk (bucket dt) (float.add s q) :: l).

(** * Properties *)

(** ** Reading fields *)

Lemma getitem_Ok (row : list string) (i : nat) (s : string) :
  getitem row i = Ok s <-> nth_error row i = Some s.
Proof.
  unfold getitem. destruct (nth_error row i); split; congruence.
Qed.

Lemma getitem_IndexError (row : list string) (i : nat) :
  List.length row <= i -> getitem row i = Raise IndexError.
Proof.
  intros H. unfold getitem.
  now rewrite (proj2 (nth_error_None row i) H).
Qed.

Lemma getitem_Raise (row : list string) (i : nat) (e : exn) :
  getitem row i = Raise e -> e = IndexError.
Proof.
  unfold getitem. destruct (nth_error row i); congruence.
Qed.

Lemma getitem_lt (row : list string) (i : nat) :
  i < List.length row -> exists s, getitem row i = Ok s.
Proof.
  intros H. unfold getitem.
  destruct (nth_error row i) eqn:E; eauto.
  apply nth_error_None in E. lia.
Qed.

Lemma nth_error_length (row : list string) (i : nat) (s : string) :
  nth_error row i = Some s -> i < List.length row.
Proof.
  intros H. apply nth_error_Some. congruence.
Qed.

(** ** The time-of-day test *)

Lemma strptime_21 :
  datetime.strptime "21:00" "%H:%M"
  = Ok (datetime.mk 1900 1 1 21 0 0 0 None).
Proof. vm_compute. reflexivity. Qed.

Lemma strptime_07 :
  datetime.strptime "07:00" "%H:%M"
  = Ok (datetime.mk 1900 1 1 7 0 0 0 None).
Proof. vm_compute. reflexivity. Qed.


Lemma bucket_time (dt : datetime.t) :
  datetime.time (bucket dt) = time.mk (datetime.hour dt) 0 0 0.
Proof. reflexivity. Qed.

Lemma time_ltb_hour (h' h : nat) :
  time.ltb (time.mk h' 0 0 0) (time.mk h 0 0 0) = (h' <? h)%nat.
Proof.
  unfold time.ltb.
  cbn [time.hour time.minute time.second time.microsecond].
  now rewrite Nat.ltb_irrefl, !andb_false_r, !orb_false_r.
Qed.

Lemma time_geb_hour (h' h : nat) :
  time.geb (time.mk h' 0 0 0) (time.mk h 0 0 0) = (h <=? h')%nat.
Proof.
  unfold time.geb. rewrite time_ltb_hour.
  destruct (Nat.ltb_spec h' h); destruct (Nat.leb_spec h h');
    try lia; reflexivity.
Qed.

Lemma night_test (dt : datetime.t) :
  (from <- datetime.strptime "21:00" "%H:%M" ;;
   if time.geb (datetime.time (bucket dt)) (datetime.time from)
   then Ok true
   else
     till <- datetime.strptime "07:00" "%H:%M" ;;
     Ok (time.ltb (datetime.time (bucket dt)) (datetime.time till)))
  = Ok (night_hours (datetime.hour dt)).
Proof.
  rewrite strptime_21, strptime_07. cbn [bind].
  change (datetime.time (datetime.mk 1900 1 1 21 0 0 0 None))
    with (time.mk 21 0 0 0).
  change (datetime.time (datetime.mk 1900 1 1 7 0 0 0 None))
    with (time.mk 7 0 0 0).
  rewrite bucket_time, time_geb_hour, time_ltb_hour. unfold night_hours.
  now destruct (21 <=? datetime.hour dt)%nat.
Qed.

(** ** One pass through the loop body *)

Lemma loop_body_short (st : locals) (row : list string) :
  List.length row < 2 -> loop_body st row = Ok (Break, st).
Proof.
  intros H. unfold loop_body.
  now rewrite (proj2 (Nat.ltb_lt _ _) H).
Qed.

Lemma loop_body_HDR (st : locals) (row : list string) :
  2 <= List.length row -> nth_error row 0 = Some "HDR" ->
  loop_body st row = Ok (Continue, st).
Proof.
  intros H H0. unfold loop_body.
  rewrite (proj2 (Nat.ltb_ge _ _) H).
  now rewrite (proj2 (getitem_Ok row 0 "HDR") H0).
Qed.

(** Past the length guard and the header test, with the fields the
    status test reads. *)
Lemma loop_body_data (st : locals) (row : list string) (status : string) :
  nth_error row 11 = Some status -> nth_error row 0 <> Some "HDR" ->
  exists flow ts,
    nth_error row 6 = Some flow /\ nth_error row 9 = Some ts
    /\ loop_body st row
       = if negb (String.eqb status "RD") then Ok (Continue, st)
         else
           start_date <- datetime.strptime ts "%d/%m/%Y %H:%M:%S" ;;
           if (datetime.minute start_date =? 59)%nat then Ok (Continue, st)
           else
             _ <- pytz.localize (pytz.timezone "Pacific/Auckland")
                    start_date ;;
             q <- quantity row ;;
             Ok (Continue,
                 accumulate (channel_of flow (datetime.hour start_date))
                   (bucket start_date) q st).
Proof.
  intros H11 H0. pose proof (nth_error_length _ _ _ H11) as Hlen.
  destruct (getitem_lt row 0) as [tag E0]; [lia|].
  destruct (getitem_lt row 6) as [flow E6]; [lia|].
  destruct (getitem_lt row 9) as [ts E9]; [lia|].
  exists flow, ts.
  split; [now apply getitem_Ok|]. split; [now apply getitem_Ok|].
  unfold loop_body.
  rewrite (proj2 (Nat.ltb_ge (List.length row) 2)) by lia.
  rewrite E0, E6, (proj2 (getitem_Ok row 11 status) H11), E9. cbn [bind].
  destruct (String.eqb_spec tag "HDR") as [->|_].
  { apply getitem_Ok in E0. contradiction. }
  destruct (negb (String.eqb status "RD")); [reflexivity|].
  destruct (datetime.strptime ts "%d/%m/%Y %H:%M:%S") as [dt|e];
    [|reflexivity].
  cbn [bind]. destruct (datetime.minute dt =? 59)%nat; [reflexivity|].
  cbv zeta. unfold pytz.localize.
  destruct (pytz.day_before_overflows dt); [reflexivity|].
  destruct (pytz.day_after_overflows dt); [reflexivity|].
  cbn [bind]. fold (bucket dt). unfold quantity, channel_of.
  destruct (getitem row 12) as [qs|e]; [|reflexivity]. cbn [bind].
  destruct (String.eqb flow "I").
  - destruct (float.of_string qs); reflexivity.
  - rewrite night_test. cbn [bind].
    destruct (night_hours (datetime.hour dt));
      destruct (float.of_string qs); reflexivity.
Qed.

Lemma loop_body_not_RD (st : locals) (row : list string) (status : string) :
  nth_error row 11 = Some status -> status <> "RD" ->
  loop_body st row = Ok (Continue, st).
Proof.
  intros H11 Hs.
  destruct (nth_error row 0) as [tag|] eqn:E0.
  - destruct (String.eqb_spec tag "HDR") as [->|Hn].
    + apply loop_body_HDR; [|assumption].
      apply nth_error_length in H11. lia.
    + destruct (loop_body_data st row status H11) as (flow & ts & _ & _ & E);
        [congruence|].
      rewrite E. now rewrite (proj2 (String.eqb_neq status "RD") Hs).
  - apply nth_error_None in E0. apply nth_error_length in H11. lia.
Qed.

Lemma loop_body_minute_59 (st : locals) (row : list string)
  (ts : string) (dt : datetime.t) :
  12 <= List.length row ->
  nth_error row 9 = Some ts ->
  datetime.strptime ts "%d/%m/%Y %H:%M:%S" = Ok dt ->
  datetime.minute dt = 59 ->
  loop_body st row = Ok (Continue, st).
Proof.
  intros Hlen H9 Hts Hm.
  destruct (nth_error row 11) as [status|] eqn:E11.
  2:{ apply nth_error_None in E11. lia. }
  destruct (String.eqb_spec status "RD") as [->|Hn].
  2:{ now apply loop_body_not_RD with status. }
  destruct (nth_error row 0) as [tag|] eqn:E0.
  2:{ apply nth_error_None in E0. lia. }
  destruct (String.eqb_spec tag "HDR") as [->|Hh].
  { apply loop_body_HDR; [lia|assumption]. }
  destruct (loop_body_data st row "RD" E11) as (flow & ts' & _ & H9' & E);
    [congruence|].
  rewrite E. assert (ts' = ts) as -> by congruence.
  rewrite Hts. cbn [bind negb String.eqb Ascii.eqb Bool.eqb].
  now rewrite Hm.
Qed.

Lemma localize_Ok (tz : string) (dt : datetime.t) :
  pytz.overflows dt = false ->
  pytz.localize tz dt = Ok (pytz.with_zone tz dt).
Proof.
  unfold pytz.overflows, pytz.localize. intros H.
  apply orb_false_iff in H. destruct H as [-> ->]. reflexivity.
Qed.

Lemma localize_OverflowError (tz : string) (dt : datetime.t) :
  pytz.overflows dt = true ->
  pytz.localize tz dt = Raise OverflowError.
Proof.
  unfold pytz.overflows, pytz.localize. intros H.
  destruct (pytz.day_before_overflows dt); [reflexivity|].
  cbn [orb] in H. now rewrite H.
Qed.

(** An accepted row is localized, and its quantity read and summed only
    when that returns. *)
Lemma loop_body_accepted (st : locals) (row : list string)
  (dt : datetime.t) (flow : string) :
  accepted row dt -> nth_error row 6 = Some flow ->
  loop_body st row
  = (_ <- pytz.localize (pytz.timezone "Pacific/Auckland") dt ;;
     q <- quantity row ;;
     Ok (Continue,
         accumulate (channel_of flow (datetime.hour dt)) (bucket dt) q st)).
Proof.
  intros (Hlen & H0 & H11 & (ts & H9 & Hts) & Hm) H6.
  destruct (loop_body_data st row "RD" H11 H0) as (flow' & ts' & H6' & H9' & E).
  rewrite E. assert (ts' = ts) as -> by congruence.
  assert (flow' = flow) as -> by congruence.
  rewrite Hts. cbn [bind negb String.eqb Ascii.eqb Bool.eqb].
  now rewrite (proj2 (Nat.eqb_neq _ _) Hm).
Qed.

Lemma loop_body_in_range (st : locals) (row : list string)
  (dt : datetime.t) (flow : string) :
  accepted row dt -> nth_error row 6 = Some flow ->
  pytz.overflows dt = false ->
  loop_body st row
  = (q <- quantity row ;;
     Ok (Continue,
         accumulate (channel_of flow (datetime.hour dt)) (bucket dt) q st)).
Proof.
  intros Ha H6 Hr. rewrite (loop_body_accepted st row dt flow Ha H6).
  now rewrite localize_Ok.
Qed.

Lemma loop_body_OverflowError (st : locals) (row : list string)
  (dt : datetime.t) :
  accepted row dt -> pytz.overflows dt = true ->
  loop_body st row = Raise OverflowError.
Proof.
  intros Ha Hr.
  destruct (nth_error row 6) as [flow|] eqn:E6.
  2:{ apply nth_error_None in E6. destruct Ha as (Hlen & _). lia. }
  rewrite (loop_body_accepted st row dt flow Ha E6).
  now rewrite localize_OverflowError.
Qed.

(** A pass that returns has localized the row it accepted. *)
Lemma loop_body_localized (st : locals) (row : list string)
  (dt : datetime.t) (x : control * locals) :
  accepted row dt -> loop_body st row = Ok x -> pytz.overflows dt = false.
Proof.
  intros Ha H. destruct (pytz.overflows dt) eqn:Hr; [|reflexivity].
  rewrite (loop_body_OverflowError st row dt Ha Hr) in H. discriminate.
Qed.

(** What a pass that returns has done: stopped the loop at a row of
    fewer than two fields, skipped the row, or accumulated an accepted
    row into its channel. *)
Lemma loop_body_cases (st st' : locals) (row : list string) (c : control) :
  loop_body st row = Ok (c, st') ->
  (c = Break /\ st' = st /\ List.length row < 2)
  \/ (c = Continue /\ st' = st /\ 2 <= List.length row)
  \/ (exists dt flow q,
         c = Continue /\ 2 <= List.length row /\ accepted row dt
         /\ nth_error row 6 = Some flow /\ quantity row = Ok q
         /\ st' = accumulate (channel_of flow (datetime.hour dt))
                    (bucket dt) q st).
Proof.
  intros H.
  destruct (Nat.lt_ge_cases (List.length row) 2) as [Hlt|Hge].
  { rewrite loop_body_short in H by assumption. left. now inversion H. }
  right.
  destruct (nth_error row 0) as [tag|] eqn:E0.
  2:{ apply nth_error_None in E0. lia. }
  destruct (String.eqb_spec tag "HDR") as [->|Hh].
  { rewrite loop_body_HDR in H by assumption. left. now inversion H. }
  destruct (nth_error row 11) as [status|] eqn:E11.
  2:{ exfalso. unfold loop_body in H.
      rewrite (proj2 (Nat.ltb_ge _ _) Hge) in H.
      rewrite (proj2 (getitem_Ok row 0 tag) E0) in H. cbn [bind] in H.
      rewrite (proj2 (String.eqb_neq _ _) Hh) in H.
      apply nth_error_None in E11.
      rewrite (getitem_IndexError row 11 E11) in H.
      destruct (getitem row 6); discriminate. }
  destruct (loop_body_data st row status E11) as (flow & ts & H6 & H9 & E);
    [congruence|].
  rewrite E in H. clear E.
  destruct (String.eqb_spec status "RD") as [->|Hs]; cbn [negb] in H.
  2:{ left. now inversion H. }
  destruct (datetime.strptime ts "%d/%m/%Y %H:%M:%S") as [dt|e] eqn:Ets;
    [|discriminate].
  cbn [bind] in H.
  destruct (Nat.eqb_spec (datetime.minute dt) 59) as [Hm|Hm].
  { left. now inversion H. }
  destruct (pytz.overflows dt) eqn:Eo.
  { rewrite localize_OverflowError in H by assumption. discriminate. }
  rewrite localize_Ok in H by assumption. cbn [bind] in H.
  destruct (quantity row) as [q|e] eqn:Eq; [|discriminate].
  cbn [bind] in H. inversion H; subst c st'. right.
  exists dt, flow, q. repeat split; try assumption; try congruence.
  - unfold quantity in Eq. destruct (getitem row 12) as [qs|] eqn:E12;
      [|discriminate].
    apply getitem_Ok, nth_error_length in E12. lia.
  - exists ts. now split.
Qed.

(** ** The loop *)

Lemma for_rows_skip (row : list string) :
  (forall st, loop_body st row = Ok (Continue, st)) ->
  forall pre post st,
    for_rows st (pre ++ row :: post) = for_rows st (pre ++ post).
Proof.
  intros Hrow pre post. induction pre as [|r pre IH]; intros st; cbn.
  - now rewrite Hrow.
  - destruct (loop_body st r) as [[[|] st']|e]; auto.
Qed.

Lemma for_rows_stop (row : list string) :
  (forall st, loop_body st row = Ok (Break, st)) ->
  forall pre post st, for_rows st (pre ++ row :: post) = for_rows st pre.
Proof.
  intros Hrow pre post. induction pre as [|r pre IH]; intros st; cbn.
  - now rewrite Hrow.
  - destruct (loop_body st r) as [[[|] st']|e]; auto.
Qed.

(** Rows of at least two fields cannot end the loop early, so the loop
    over a document that begins with such rows goes through them first. *)
Lemma for_rows_app (pre rest : list (list string)) :
  Forall (fun r => 2 <= List.length r) pre ->
  forall st,
    for_rows st (pre ++ rest) = (st' <- for_rows st pre ;; for_rows st' rest).
Proof.
  induction 1 as [|r pre Hr _ IH]; intros st; cbn; [reflexivity|].
  destruct (loop_body st r) as [[[|] st']|e] eqn:E; auto.
  apply loop_body_cases in E.
  destruct E as [(_ & _ & Hlt)|[(Hc & _)|(dt & flow & q & Hc & _)]];
    [lia|discriminate|discriminate].
Qed.

Lemma update_for_rows (DOMAIN SENSOR_NAME : string) (hass : recorder)
  (csv_file csv_file' : list (list string)) :
  for_rows initial csv_file = for_rows initial csv_file' ->
  update DOMAIN SENSOR_NAME hass csv_file
  = update DOMAIN SENSOR_NAME hass csv_file'.
Proof.
  intros H. unfold update. now rewrite H.
Qed.

Lemma update_Raise (DOMAIN SENSOR_NAME : string) (hass : recorder)
  (csv_file : list (list string)) (e : exn) :
  for_rows initial csv_file = Raise e ->
  update DOMAIN SENSOR_NAME hass csv_file = (hass, Raise e).
Proof.
  intros H. unfold update. now rewrite H.
Qed.

Lemma update_Ok (DOMAIN SENSOR_NAME : string) (hass hass' : recorder)
  (csv_file : list (list string)) :
  update DOMAIN SENSOR_NAME hass csv_file = (hass', Ok tt) ->
  exists st,
    for_rows initial csv_file = Ok st
    /\ hass'
       = (hass ++ [(solarMetadata DOMAIN SENSOR_NAME, series Solar st);
                   (dayMetadata DOMAIN SENSOR_NAME, series Day st);
                   (nightMetadata DOMAIN SENSOR_NAME, series Night st)])%list.
Proof.
  unfold update, async_add_external_statistics.
  destruct (for_rows initial csv_file) as [st|e]; [|discriminate].
  intros H. inversion H. exists st. split; [reflexivity|].
  now rewrite <- !app_assoc.
Qed.

(** A row on which every pass raises, in a document whose earlier rows
    cannot end the loop: the update raises and the recorder is as it was;
    the error is the row's own when the earlier rows raise none. *)
Lemma update_raising_row (DOMAIN SENSOR_NAME : string) (hass : recorder)
  (pre post : list (list string)) (row : list string) (e : exn) :
  Forall (fun r => 2 <= List.length r) pre ->
  (forall st, loop_body st row = Raise e) ->
  (exists e',
      update DOMAIN SENSOR_NAME hass (pre ++ row :: post) = (hass, Raise e'))
  /\ (forall st,
         for_rows initial pre = Ok st ->
         update DOMAIN SENSOR_NAME hass (pre ++ row :: post)
         = (hass, Raise e)).
Proof.
  intros Hpre Hrow.
  assert (H : for_rows initial (pre ++ row :: post)
              = (st <- for_rows initial pre ;; Raise e)).
  { rewrite (for_rows_app pre (row :: post) Hpre).
    destruct (for_rows initial pre) as [st|e']; [|reflexivity].
    cbn [bind for_rows]. now rewrite Hrow. }
  split.
  - destruct (for_rows initial pre) as [st|e'] eqn:E.
    + exists e. now apply update_Raise.
    + exists e'. now apply update_Raise.
  - intros st Hst. apply update_Raise. now rewrite H, Hst.
Qed.

Lemma loop_body_IndexError (st : locals) (row : list string) :
  reads_missing_field row -> loop_body st row = Raise IndexError.
Proof.
  intros (Hge & H0 & [Hlt|(H12 & H11 & ts & dt & H9 & Hts & Hm & Hr)]).
  - unfold loop_body. rewrite (proj2 (Nat.ltb_ge _ _) Hge).
    destruct (getitem_lt row 0) as [tag E0]; [lia|]. rewrite E0. cbn [bind].
    destruct (String.eqb_spec tag "HDR") as [->|_].
    { apply getitem_Ok in E0. contradiction. }
    rewrite (getitem_IndexError row 11) by lia.
    destruct (getitem row 6) as [flow|e] eqn:E6; [reflexivity|].
    now rewrite (getitem_Raise row 6 e E6).
  - destruct (loop_body_data st row "RD" H11 H0) as (flow & ts' & _ & H9' & E).
    rewrite E. assert (ts' = ts) as -> by congruence.
    rewrite Hts. cbn [bind negb String.eqb Ascii.eqb Bool.eqb].
    rewrite (proj2 (Nat.eqb_neq _ _) Hm).
    rewrite localize_Ok by assumption. cbn [bind].
    unfold quantity. now rewrite (getitem_IndexError row 12) by lia.
Qed.

Example scenario_day :
  for_rows initial [hdr; day_row]
  = Ok (mk_locals [] float.zero
          [StatisticData.mk (at_hour 10) f1_5] f1_5
          [] float.zero).
Proof. vm_compute. reflexivity. Qed.

Example scenario_night :
  for_rows initial [hdr; night_row]
  = Ok (mk_locals [] float.zero [] float.zero
          [StatisticData.mk (at_hour 22) f1_5] f1_5).
Proof. vm_compute. reflexivity. Qed.

Example scenario_solar :
  for_rows initial [hdr; solar_row]
  = Ok (mk_locals [StatisticData.mk (at_hour 22) f2_0] f2_0
          [] float.zero [] float.zero).
Proof. vm_compute. reflexivity. Qed.

Example scenario_two_day_rows :
  for_rows initial [hdr; det "E" "15/03/2023 10:00:00" "RD" "1.0";
                    det "E" "15/03/2023 11:00:00" "RD" "2.5"]
  = Ok (mk_locals [] float.zero
          [StatisticData.mk (at_hour 10) f1_0;
           StatisticData.mk (at_hour 11) f3_5] f3_5
          [] float.zero).
Proof. vm_compute. reflexivity. Qed.

Example float_one_tenth :
  float.of_string "0.1" = Ok (S754_finite false 7205759403792794 (-56)).
Proof. vm_compute. reflexivity. Qed.

Example float_sum_rounds :
  (x <- float.of_string "0.1" ;;
   y <- float.of_string " 2e-1 " ;;
   Ok (float.add x y))
  = float.of_string "0.30000000000000004".
Proof. vm_compute. reflexivity. Qed.

Example float_rejects :
  map float.of_string ["n/a"; ""; "1,5"; "1_"; "0x10"]
  = [Raise ValueError; Raise ValueError; Raise ValueError;
     Raise ValueError; Raise ValueError].
Proof. vm_compute. reflexivity. Qed.

Example strptime_rejects :
  map (fun s => datetime.strptime s "%d/%m/%Y %H:%M:%S")
    ["29/02/2023 10:00:00"; "15/03/2023 24:00:00"; "15/03/2023 10:00";
     "2023-03-15 10:00:00"]
  = [Raise ValueError; Raise ValueError; Raise ValueError;
     Raise ValueError].
Proof. vm_compute. reflexivity. Qed.

(** [strptime] takes the separators 28 to 31 for white space, [float]
    does not. *)
Example separators_are_space_for_strptime_only :
  datetime.strptime ("15/03/2023" ++ String (ascii_of_nat 28) "10:30:00")
    "%d/%m/%Y %H:%M:%S"
  = Ok (datetime.mk 2023 3 15 10 30 0 0 None)
  /\ float.of_string (String (ascii_of_nat 28) "1.5") = Raise ValueError
  /\ float.of_string (String (ascii_of_nat 9) "1.5") = Ok f1_5.
Proof. repeat split; vm_compute; reflexivity. Qed.

Example localize_edges :
  map (fun ts =>
         start_date <- datetime.strptime ts "%d/%m/%Y %H:%M:%S" ;;
         pytz.localize (pytz.timezone "Pacific/Auckland") start_date)
    ["01/01/0001 00:00:00"; "02/01/0001 00:00:00"; "30/12/9999 23:59:58";
     "31/12/9999 00:00:00"]
  = [Raise OverflowError;
     Ok (datetime.mk 1 1 2 0 0 0 0 (Some "Pacific/Auckland"));
     Ok (datetime.mk datetime.MAXYEAR 12 30 23 59 58 0
           (Some "Pacific/Auckland"));
     Raise OverflowError].
Proof. vm_compute. reflexivity. Qed.

Example scenario_edge_dates :
  map (loop_body initial)
    [first_day_row; last_day_row; first_day_bad_quantity;
     twelve_fields_first_day]
  = [Raise OverflowError; Raise OverflowError; Raise OverflowError;
     Raise OverflowError].
Proof. vm_compute. reflexivity. Qed.

(** ** Classification *)



(** ** Rows that end the loop *)

(** C2, as amended: when a line of fewer than 2 fields is met, the rest of
    the document is not processed, and the update does exactly what it
    does on the rows before that line: their points reach the recorder
    unchanged. *)
Theorem short_row_stops_processing (DOMAIN SENSOR_NAME : string)
  (hass : recorder) (pre post : list (list string)) (row : list string) :
  List.length row < 2 ->
  update DOMAIN SENSOR_NAME hass (pre ++ row :: post)
  = update DOMAIN SENSOR_NAME hass pre.
Proof.
  intros Hlen. apply update_for_rows. apply for_rows_stop.
  intros st. now apply loop_body_short.
Qed.

Lemma short_row_stops_processing_witness :
  List.length blank < 2
  /\ update "meridian_energy" "Meridian Energy" []
       ([hdr; day_row] ++ blank :: [night_row])
     = update "meridian_energy" "Meridian Energy" [] [hdr; day_row].
Proof.
  split; [cbn; lia|].
  apply (short_row_stops_processing "meridian_energy" "Meridian Energy" []
           [hdr; day_row] [night_row] blank).
  cbn; lia.
Defined.

(** C2 as stated fails: a header line of two fields does not stop the
    loop, and the row after it is accumulated; a detail line of three
    fields makes the update raise, and the point of the row before it
    never reaches the recorder. *)
Lemma short_row_13_counterexample :
  List.length short_hdr < 13
  /\ List.length short_det < 13
  /\ update "meridian_energy" "Meridian Energy" []
       ([day_row] ++ short_hdr :: [night_row])
     <> update "meridian_energy" "Meridian Energy" [] [day_row]
  /\ update "meridian_energy" "Meridian Energy" []
       ([day_row] ++ short_det :: [night_row])
     = ([], Raise IndexError).
Proof.
  split; [cbn; lia|]. split; [cbn; lia|]. split.
  - vm_compute. discriminate.
  - vm_compute. reflexivity.
Qed.

(** ** Rows that are skipped *)

(** C5: a row whose timestamp (field 9) has minute 59 adds no point and
    advances no running sum: whenever the pass returns, the accumulators
    are as before, and with its status field present the row is skipped,
    so the update is the one of the document without it.  The test reads
    the parsed minute; the bucket's minute is 0. *)
Theorem minute_59_row_is_skipped (st : locals) (row : list string)
  (ts : string) (dt : datetime.t) :
  nth_error row 9 = Some ts ->
  datetime.strptime ts "%d/%m/%Y %H:%M:%S" = Ok dt ->
  datetime.minute dt = 59 ->
  (forall c st', loop_body st row = Ok (c, st') -> st' = st)
  /\ datetime.minute (bucket dt) = 0
  /\ (12 <= List.length row ->
      loop_body st row = Ok (Continue, st)
      /\ forall DOMAIN SENSOR_NAME hass pre post,
           update DOMAIN SENSOR_NAME hass (pre ++ row :: post)
           = update DOMAIN SENSOR_NAME hass (pre ++ post)).
Proof.
  intros H9 Hts Hm. split; [|split; [reflexivity|]].
  - intros c st' H. apply loop_body_cases in H.
    destruct H as [(_ & H & _)|[(_ & H & _)|H]]; try assumption.
    destruct H as (dt' & flow & q & _ & _ & Hacc & _).
    destruct Hacc as (_ & _ & _ & (ts' & H9' & Hts') & Hm').
    congruence.
  - intros Hlen. split.
    + now apply loop_body_minute_59 with ts dt.
    + intros. apply update_for_rows, for_rows_skip.
      intros st0. now apply loop_body_minute_59 with ts dt.
Qed.

Lemma minute_59_row_is_skipped_witness :
  nth_error summary_row 9 = Some "15/03/2023 23:59:00"
  /\ datetime.strptime "15/03/2023 23:59:00" "%d/%m/%Y %H:%M:%S"
     = Ok (datetime.mk 2023 3 15 23 59 0 0 None)
  /\ datetime.minute (datetime.mk 2023 3 15 23 59 0 0 None) = 59
  /\ loop_body initial summary_row = Ok (Continue, initial).
Proof.
  assert (H9 : nth_error summary_row 9 = Some "15/03/2023 23:59:00")
    by reflexivity.
  assert (Hts : datetime.strptime "15/03/2023 23:59:00" "%d/%m/%Y %H:%M:%S"
                = Ok (datetime.mk 2023 3 15 23 59 0 0 None))
    by (vm_compute; reflexivity).
  split; [exact H9|]. split; [exact Hts|]. split; [reflexivity|].
  refine (proj1 (proj2 (proj2 (minute_59_row_is_skipped initial summary_row
                                 _ _ H9 Hts eq_refl)) _)).
  cbn; lia.
Defined.

(** C6: a row whose read status (field 11) is not exactly "RD" is skipped:
    the pass leaves every series and every running sum as it was. *)
Theorem non_RD_row_is_skipped (st : locals) (row : list string)
  (status : string) :
  nth_error row 11 = Some status ->
  status <> "RD" ->
  loop_body st row = Ok (Continue, st).
Proof.
  apply loop_body_not_RD.
Qed.

Lemma non_RD_row_is_skipped_witness :
  nth_error estimate_row 11 = Some "EST"
  /\ "EST" <> "RD"
  /\ loop_body initial estimate_row = Ok (Continue, initial).
Proof.
  assert (Hn : "EST" <> "RD") by discriminate.
  split; [reflexivity|]. split; [exact Hn|].
  exact (non_RD_row_is_skipped initial estimate_row "EST" eq_refl Hn).
Defined.

(** C8: a document with a row of read status "EST" gives the recorder
    what the document without that row gives it. *)
Theorem estimated_row_is_absent (DOMAIN SENSOR_NAME : string)
  (hass : recorder) (pre post : list (list string)) (row : list string) :
  nth_error row 11 = Some "EST" ->
  update DOMAIN SENSOR_NAME hass (pre ++ row :: post)
  = update DOMAIN SENSOR_NAME hass (pre ++ post).
Proof.
  intros H11. apply update_for_rows, for_rows_skip.
  intros st. apply loop_body_not_RD with "EST"; [assumption|discriminate].
Qed.

Lemma estimated_row_is_absent_witness :
  nth_error estimate_row 11 = Some "EST"
  /\ update "meridian_energy" "Meridian Energy" []
       ([hdr; day_row] ++ estimate_row :: [night_row])
     = update "meridian_energy" "Meridian Energy" []
         ([hdr; day_row] ++ [night_row]).
Proof.
  split; [reflexivity|].
  exact (estimated_row_is_absent "meridian_energy" "Meridian Energy" []
           [hdr; day_row] [night_row] estimate_row eq_refl).
Defined.

(** ** The calls of the sink *)

(** C9: an update that returns has called the sink exactly three times
    after what the recorder held: Solar, Day and Night in that order, under
    the identifiers return_to_grid, consumption_day and consumption_night
    of the domain, in kilowatt-hours, each with the series of its channel;
    on a document without rows the three series are empty and are sent
    all the same. *)
Theorem update_calls_sink_three_times (DOMAIN SENSOR_NAME : string)
  (hass hass' : recorder) (csv_file : list (list string)) :
  update DOMAIN SENSOR_NAME hass csv_file = (hass', Ok tt) ->
  (exists st,
      for_rows initial csv_file = Ok st
      /\ exists solar day night,
          hass' = (hass ++ [(solar, series Solar st); (day, series Day st);
                            (night, series Night st)])%list
          /\ StatisticMetaData.statistic_id solar
             = DOMAIN ++ ":return_to_grid"
          /\ StatisticMetaData.statistic_id day
             = DOMAIN ++ ":consumption_day"
          /\ StatisticMetaData.statistic_id night
             = DOMAIN ++ ":consumption_night"
          /\ StatisticMetaData.unit_of_measurement solar = KILO_WATT_HOUR
          /\ StatisticMetaData.unit_of_measurement day = KILO_WATT_HOUR
          /\ StatisticMetaData.unit_of_measurement night = KILO_WATT_HOUR)
  /\ exists solar day night,
      update DOMAIN SENSOR_NAME hass []
      = ((hass ++ [(solar, []); (day, []); (night, [])])%list, Ok tt).
Proof.
  intros H. split.
  - destruct (update_Ok _ _ _ _ _ H) as (st & Hst & ->).
    exists st. split; [assumption|].
    exists (solarMetadata DOMAIN SENSOR_NAME), (dayMetadata DOMAIN SENSOR_NAME),
      (nightMetadata DOMAIN SENSOR_NAME).
    repeat split.
  - exists (solarMetadata DOMAIN SENSOR_NAME), (dayMetadata DOMAIN SENSOR_NAME),
      (nightMetadata DOMAIN SENSOR_NAME).
    unfold update, async_add_external_statistics. cbn [for_rows].
    now rewrite <- !app_assoc.
Qed.

Lemma update_calls_sink_three_times_witness :
  update "meridian_energy" "Meridian Energy" [] [hdr; day_row]
  = ([(solarMetadata "meridian_energy" "Meridian Energy", []);
      (dayMetadata "meridian_energy" "Meridian Energy",
       [StatisticData.mk (at_hour 10) f1_5]);
      (nightMetadata "meridian_energy" "Meridian Energy", [])], Ok tt)
  /\ exists st,
      for_rows initial [hdr; day_row] = Ok st
      /\ series Day st = [StatisticData.mk (at_hour 10) f1_5].
Proof.
  assert (H : update "meridian_energy" "Meridian Energy" [] [hdr; day_row]
              = ([(solarMetadata "meridian_energy" "Meridian Energy", []);
                  (dayMetadata "meridian_energy" "Meridian Energy",
                   [StatisticData.mk (at_hour 10) f1_5]);
                  (nightMetadata "meridian_energy" "Meridian Energy", [])],
                 Ok tt))
    by (vm_compute; reflexivity).
  split; [exact H|].
  destruct (proj1 (update_calls_sink_three_times _ _ _ _ _ H))
    as (st & Hst & solar & day & night & Hh & _).
  exists st. split; [exact Hst|].
  cbn [app] in Hh. now inversion Hh.
Defined.

(** ** Rows that make the update raise *)



(** C10, as amended: a row that reads a field it does not have (two to
    eleven fields and not a header, or twelve fields that pass the status
    and minute filters and are localized, as every date is but the first
    and the last that [datetime] holds) makes the pass raise IndexError.
    When no row before it ends the loop, the update raises and hands no
    series to the recorder; the error is that IndexError when the rows
    before it are processed without one.  The guard that ends the loop
    fires only for rows of fewer than two fields. *)
Theorem missing_field_raises_IndexError (DOMAIN SENSOR_NAME : string)
  (hass : recorder) (pre post : list (list string)) (row : list string) :
  Forall (fun r => 2 <= List.length r) pre ->
  reads_missing_field row ->
  (forall st, loop_body st row = Raise IndexError)
  /\ (exists e,
         update DOMAIN SENSOR_NAME hass (pre ++ row :: post) = (hass, Raise e))
  /\ (forall st,
         for_rows initial pre = Ok st ->
         update DOMAIN SENSOR_NAME hass (pre ++ row :: post)
         = (hass, Raise IndexError))
  /\ forall st0 r st', loop_body st0 r = Ok (Break, st') -> List.length r < 2.
Proof.
  intros Hpre Hrow.
  assert (Hb : forall st, loop_body st row = Raise IndexError)
    by (intros st; now apply loop_body_IndexError).
  split; [exact Hb|].
  destruct (update_raising_row DOMAIN SENSOR_NAME hass pre post row
              IndexError Hpre Hb) as [H1 H2].
  split; [exact H1|]. split; [exact H2|].
  intros st0 r st' H. apply loop_body_cases in H.
  destruct H as [(_ & _ & H)|[(H & _)|(dt & flow & q & H & _)]];
    [assumption|discriminate|discriminate].
Qed.

Lemma missing_field_raises_IndexError_witness :
  Forall (fun r => 2 <= List.length r) [hdr; day_row]
  /\ reads_missing_field short_det
  /\ for_rows initial [hdr; day_row]
     = Ok (mk_locals [] float.zero
             [StatisticData.mk (at_hour 10) f1_5] f1_5 [] float.zero)
  /\ update "meridian_energy" "Meridian Energy" []
       ([hdr; day_row] ++ short_det :: [night_row])
     = ([], Raise IndexError).
Proof.
  assert (Hpre : Forall (fun r => 2 <= List.length r) [hdr; day_row])
    by (repeat constructor; cbn; lia).
  assert (Hrow : reads_missing_field short_det).
  { split; [cbn; lia|]. split; [cbn; congruence|]. left. cbn; lia. }
  assert (Hst : for_rows initial [hdr; day_row]
                = Ok (mk_locals [] float.zero
                        [StatisticData.mk (at_hour 10) f1_5] f1_5
                        [] float.zero)) by (vm_compute; reflexivity).
  split; [exact Hpre|]. split; [exact Hrow|]. split; [exact Hst|].
  exact (proj1 (proj2 (proj2 (missing_field_raises_IndexError
                                "meridian_energy" "Meridian Energy" []
                                [hdr; day_row] [night_row] short_det
                                Hpre Hrow))) _ Hst).
Defined.

(** C10 as stated fails: a detail line of twelve fields whose status is
    not "RD" is skipped before any missing field is read, and a detail
    line of three fields after a blank line is never read at all; both
    updates return with their three calls of the sink.  A detail line of
    twelve fields with status "RD" that is stamped on the first day of
    [datetime] makes the update raise, but OverflowError on localizing
    it, before field 12 is read. *)
Lemma missing_field_not_read_counterexample :
  2 <= List.length twelve_fields_estimate < 13
  /\ nth_error twelve_fields_estimate 0 <> Some "HDR"
  /\ update "meridian_energy" "Meridian Energy" [] [twelve_fields_estimate]
     = ([(solarMetadata "meridian_energy" "Meridian Energy", []);
         (dayMetadata "meridian_energy" "Meridian Energy", []);
         (nightMetadata "meridian_energy" "Meridian Energy", [])], Ok tt)
  /\ 2 <= List.length short_det < 13
  /\ nth_error short_det 0 <> Some "HDR"
  /\ update "meridian_energy" "Meridian Energy" [] [blank; short_det]
     = ([(solarMetadata "meridian_energy" "Meridian Energy", []);
         (dayMetadata "meridian_energy" "Meridian Energy", []);
         (nightMetadata "meridian_energy" "Meridian Energy", [])], Ok tt)
  /\ 2 <= List.length twelve_fields_first_day < 13
  /\ nth_error twelve_fields_first_day 0 <> Some "HDR"
  /\ update "meridian_energy" "Meridian Energy" [] [twelve_fields_first_day]
     = ([], Raise OverflowError).
Proof.
  split; [cbn; lia|]. split; [cbn; congruence|].
  split; [vm_compute; reflexivity|].
  split; [cbn; lia|]. split; [cbn; congruence|].
  split; [vm_compute; reflexivity|].
  split; [cbn; lia|]. split; [cbn; congruence|].
  vm_compute. reflexivity.
Qed.

(** ** Rounding to binary64 *)

Local Open Scope Z_scope.

Lemma fexp64_eq (e : Z) : fexp64 e = Z.max (e - 53) (-1074).
Proof. reflexivity. Qed.

Lemma digits2_pos_size (p : positive) : digits2_pos p = Pos.size p.
Proof. induction p; cbn; congruence. Qed.

Lemma Zdigits2_log2 (p : positive) :
  Zpos (digits2_pos p) = Z.log2 (Zpos p) + 1.
Proof.
  rewrite digits2_pos_size. destruct p; cbn; lia.
Qed.

Lemma shr_1_m (mrs : shr_record) :
  0 <= shr_m mrs -> shr_m (shr_1 mrs) = Z.div2 (shr_m mrs).
Proof.
  destruct mrs as [m r s]. cbn. intros H.
  destruct m as [|[p|p|]|p]; try reflexivity. lia.
Qed.

Lemma iter_shr_1_m (n : positive) :
  forall mrs, 0 <= shr_m mrs ->
    shr_m (iter_pos shr_1 n mrs) = Pos.iter Z.div2 (shr_m mrs) n.
Proof.
  assert (Hnn : forall k a, 0 <= a -> 0 <= Pos.iter Z.div2 a k).
  { intros k a Ha. apply Pos.iter_invariant; [|assumption].
    intros x Hx. apply Z.div2_nonneg. assumption. }
  induction n as [n IH|n IH|]; intros mrs H; cbn [iter_pos Pos.iter].
  - rewrite IH, IH, shr_1_m, <- Pos.iter_swap, <- Pos.iter_swap; auto.
    + rewrite shr_1_m by assumption. now apply Z.div2_nonneg.
    + rewrite IH.
      * apply Hnn. rewrite shr_1_m by assumption. now apply Z.div2_nonneg.
      * rewrite shr_1_m by assumption. now apply Z.div2_nonneg.
  - rewrite IH, IH; auto. rewrite IH by assumption. now apply Hnn.
  - now apply shr_1_m.
Qed.

(** Shifting right by [n] places divides the mantissa by [2 ^ n]; a
    shift that is not positive does nothing. *)
Lemma shr_spec (mrs : shr_record) (e n : Z) :
  0 <= shr_m mrs ->
  snd (shr mrs e n) = e + Z.max 0 n
  /\ shr_m (fst (shr mrs e n)) = shr_m mrs / 2 ^ Z.max 0 n.
Proof.
  intros Hm. unfold shr. destruct n as [|p|p]; cbn [fst snd Z.max Z.compare].
  - split; [lia|]. now rewrite Z.div_1_r.
  - split; [reflexivity|].
    rewrite iter_shr_1_m by assumption.
    rewrite <- Z.shiftr_div_pow2 by lia. reflexivity.
  - split; [lia|]. now rewrite Z.div_1_r.
Qed.

Lemma round_nearest_even_bounds (m : Z) (l : location) :
  m <= round_nearest_even m l <= m + 1.
Proof.
  unfold round_nearest_even.
  destruct l as [|[| |]]; try destruct (Z.even m); lia.
Qed.

Lemma digits_div_pow2 (m : positive) (n : Z) :
  0 <= n < Zpos (digits2_pos m) ->
  exists q, Zpos m / 2 ^ n = Zpos q
            /\ Zpos (digits2_pos q) = Zpos (digits2_pos m) - n.
Proof.
  intros Hn. rewrite Zdigits2_log2 in Hn.
  assert (Hpos : 0 < Zpos m / 2 ^ n).
  { apply Z.div_str_pos. split; [apply Z.pow_pos_nonneg; lia|].
    transitivity (2 ^ Z.log2 (Zpos m)).
    - apply Z.pow_le_mono_r; lia.
    - apply Z.log2_spec. lia. }
  destruct (Zpos m / 2 ^ n) as [|q|q] eqn:E; try lia.
  exists q. split; [reflexivity|].
  rewrite !Zdigits2_log2, <- E, <- Z.shiftr_div_pow2 by lia.
  rewrite Z.log2_shiftr by lia. lia.
Qed.

Lemma digits_div_pow2_zero (m : positive) (n : Z) :
  0 <= n -> Zpos m / 2 ^ n = 0 -> Zpos (digits2_pos m) <= n.
Proof.
  intros Hn H. rewrite Zdigits2_log2.
  apply Z.div_small_iff in H; [|apply Z.pow_nonzero; lia].
  destruct H as [H|H]; [|pose proof (Z.pow_pos_nonneg 2 n); lia].
  enough (Z.log2 (Zpos m) < n) by lia.
  apply Z.log2_lt_pow2; lia.
Qed.

Lemma digits_le (a b : positive) :
  (a <= b)%positive -> Zpos (digits2_pos a) <= Zpos (digits2_pos b).
Proof.
  intros H. rewrite !Zdigits2_log2.
  enough (Z.log2 (Zpos a) <= Z.log2 (Zpos b)) by lia.
  apply Z.log2_le_mono. lia.
Qed.

Lemma digits_div_pow2_pos (m : positive) (n : Z) :
  0 <= n -> 0 < Zpos m / 2 ^ n -> n < Zpos (digits2_pos m).
Proof.
  intros Hn H. rewrite Zdigits2_log2.
  enough (n <= Z.log2 (Zpos m)) by lia.
  apply Z.log2_le_pow2; [lia|].
  destruct (Z.le_gt_cases (2 ^ n) (Zpos m)) as [Hle|Hgt]; [assumption|].
  rewrite Z.div_small in H by lia. lia.
Qed.

Lemma shr_fexp_spec (m e : Z) (l : location) :
  0 <= m ->
  snd (shr_fexp float.prec float.emax m e l)
  = e + Z.max 0 (fexp64 (Zdigits2 m + e) - e)
  /\ shr_m (fst (shr_fexp float.prec float.emax m e l))
     = m / 2 ^ Z.max 0 (fexp64 (Zdigits2 m + e) - e).
Proof.
  intros Hm. unfold shr_fexp. fold (fexp64 (Zdigits2 m + e)).
  destruct (shr_spec (shr_record_of_loc m l) e
              (fexp64 (Zdigits2 m + e) - e)) as [H1 H2].
  - destruct l as [|[| |]]; exact Hm.
  - rewrite H1, H2. split; [lia|].
    destruct l as [|[| |]]; reflexivity.
Qed.

(** Rounding [m * 2 ^ e], when [e] is not above the exponent [e1] that
    the format gives a number of that size: the result keeps the sign and
    is never NaN; when it is finite it is a number of the format, its
    exponent is at least [e1], and at exponent [e1] its mantissa is at
    least the truncated [m / 2 ^ (e1 - e)]; it is a zero only when that
    quotient is 0. *)
Lemma binary_round_aux_spec (s : bool) (m : positive) (e : Z) (l : location) :
  e <= fexp64 (Zpos (digits2_pos m) + e) ->
  match binary_round_aux float.prec float.emax s (Zpos m) e l with
  | S754_zero s' =>
      s' = s /\ Zpos m / 2 ^ (fexp64 (Zpos (digits2_pos m) + e) - e) = 0
  | S754_infinity s' => s' = s
  | S754_nan => False
  | S754_finite s' m' e' =>
      s' = s /\ bounded float.prec float.emax m' e' = true
      /\ fexp64 (Zpos (digits2_pos m) + e) <= e'
      /\ (e' = fexp64 (Zpos (digits2_pos m) + e) ->
          Zpos m / 2 ^ (fexp64 (Zpos (digits2_pos m) + e) - e) <= Zpos m')
  end.
Proof.
  intros He. unfold binary_round_aux.
  destruct (shr_fexp_spec (Zpos m) e l) as [H1e H1m]; [lia|].
  destruct (shr_fexp float.prec float.emax (Z.pos m) e l) as [mrs1 e1].
  cbn [fst snd] in H1e, H1m. cbn [Zdigits2] in H1e, H1m.
  set (E := Zpos (digits2_pos m) + e) in *.
  rewrite Z.max_r in H1e, H1m by lia.
  replace (e + (fexp64 E - e)) with (fexp64 E) in H1e by lia.
  set (m1 := Zpos m / 2 ^ (fexp64 E - e)) in *.
  pose proof (round_nearest_even_bounds (shr_m mrs1) (loc_of_shr_record mrs1))
    as Hr.
  set (m1' := round_nearest_even (shr_m mrs1) (loc_of_shr_record mrs1)) in *.
  assert (Hm1 : 0 <= m1).
  { apply Z.div_pos; [lia|]. apply Z.pow_pos_nonneg; lia. }
  destruct (shr_fexp_spec m1' e1 loc_Exact) as [H2e H2m]; [lia|].
  destruct (shr_fexp float.prec float.emax m1' e1 loc_Exact) as [mrs2 e2].
  cbn [fst snd] in H2e, H2m.
  destruct m1' as [|q|q] eqn:Eq; [| |lia].
  - rewrite H2m, Z.div_0_l by (apply Z.pow_nonzero; lia).
    split; [reflexivity|lia].
  - cbn [Zdigits2] in H2e, H2m.
    set (E' := Zpos (digits2_pos q) + e1) in *.
    assert (Hmono : e1 <= fexp64 E').
    { destruct (Z.eq_dec m1 0) as [Hz|Hnz].
      - apply digits_div_pow2_zero in Hz; [|lia].
        rewrite H1e, !fexp64_eq in *. lia.
      - destruct (digits_div_pow2 m (fexp64 E - e)) as (q1 & Hq1 & Hd1).
        { split; [lia|]. apply digits_div_pow2_pos; [lia|]. fold m1. lia. }
        fold m1 in Hq1.
        assert (Hle : Zpos (digits2_pos q1) <= Zpos (digits2_pos q)).
        { apply digits_le. lia. }
        assert (E <= E') by (unfold E, E'; lia).
        rewrite H1e, !fexp64_eq in *. lia. }
    rewrite Z.max_r in H2e, H2m by lia.
    replace (e1 + (fexp64 E' - e1)) with (fexp64 E') in H2e by lia.
    destruct (digits_div_pow2 q (fexp64 E' - e1)) as (q' & Hq' & Hd').
    { split; [lia|]. rewrite fexp64_eq in *. unfold E' in *. lia. }
    rewrite H2m, Hq'.
    assert (Hcan : canonical_mantissa float.prec float.emax q' e2 = true).
    { unfold canonical_mantissa. apply Z.eqb_eq.
      fold (fexp64 (Zpos (digits2_pos q') + e2)).
      rewrite Hd', H2e.
      replace (Zpos (digits2_pos q) - (fexp64 E' - e1) + fexp64 E') with E'
        by (unfold E'; lia).
      reflexivity. }
    destruct (Z.leb_spec e2 (float.emax - float.prec)) as [Hb|Hb];
      [|reflexivity].
    split; [reflexivity|]. split.
    { unfold bounded. rewrite Hcan. cbn [andb]. now apply Z.leb_le. }
    split; [lia|].
    intros He2. assert (Hn0 : fexp64 E' - e1 = 0) by lia.
    rewrite Hn0, Z.pow_0_r, Z.div_1_r in Hq'. lia.
Qed.

Lemma iter_xO_pow2 (m d : positive) :
  Zpos (Pos.iter xO m d) = Zpos m * 2 ^ Zpos d.
Proof.
  induction d as [|d IH] using Pos.peano_ind.
  - cbn. lia.
  - rewrite Pos.iter_succ, Pos2Z.inj_succ, Z.pow_succ_r by lia.
    rewrite Pos2Z.inj_xO, IH. lia.
Qed.

Lemma digits_mul_pow2 (m q : positive) (d : Z) :
  0 <= d -> Zpos q = Zpos m * 2 ^ d ->
  Zpos (digits2_pos q) = Zpos (digits2_pos m) + d.
Proof.
  intros Hd H. rewrite !Zdigits2_log2, H, Z.log2_mul_pow2 by lia. lia.
Qed.

Lemma shl_align_spec (m : positive) (e e' : Z) :
  Zpos (fst (shl_align m e e')) = Zpos m * 2 ^ Z.max 0 (e - e')
  /\ snd (shl_align m e e') = e - Z.max 0 (e - e').
Proof.
  unfold shl_align. destruct (e' - e) as [|d|d] eqn:E; cbn [fst snd].
  - rewrite Z.max_l by lia. cbn. lia.
  - rewrite Z.max_l by lia. cbn. lia.
  - rewrite Z.max_r by lia. replace (e - e') with (Zpos d) by lia.
    split; [apply iter_xO_pow2|lia].
Qed.

(** The same for [binary_round], which first aligns the mantissa. *)
Lemma binary_round_spec (s : bool) (m : positive) (e : Z) :
  match binary_round float.prec float.emax s m e with
  | S754_zero s' =>
      s' = s
      /\ (e <= fexp64 (Zpos (digits2_pos m) + e) ->
          Zpos m / 2 ^ (fexp64 (Zpos (digits2_pos m) + e) - e) = 0)
  | S754_infinity s' => s' = s
  | S754_nan => False
  | S754_finite s' m' e' =>
      s' = s /\ bounded float.prec float.emax m' e' = true
      /\ fexp64 (Zpos (digits2_pos m) + e) <= e'
      /\ (e <= fexp64 (Zpos (digits2_pos m) + e) ->
          e' = fexp64 (Zpos (digits2_pos m) + e) ->
          Zpos m / 2 ^ (fexp64 (Zpos (digits2_pos m) + e) - e) <= Zpos m')
  end.
Proof.
  unfold binary_round. fold (fexp64 (Zpos (digits2_pos m) + e)).
  set (E := Zpos (digits2_pos m) + e).
  destruct (shl_align_spec m e (fexp64 E)) as [Hm He].
  destruct (shl_align m e (fexp64 E)) as [mz ez]. cbn [fst snd] in Hm, He.
  assert (HE : Zpos (digits2_pos mz) + ez = E).
  { rewrite (digits_mul_pow2 m mz (Z.max 0 (e - fexp64 E)))
      by (lia || exact Hm).
    subst E. lia. }
  pose proof (binary_round_aux_spec s mz ez loc_Exact) as H.
  rewrite HE in H.
  destruct (Z.le_gt_cases e (fexp64 E)) as [Hle|Hgt].
  - rewrite Z.max_l in Hm, He by lia.
    assert (mz = m) as -> by lia. assert (ez = e) as -> by lia.
    specialize (H Hle).
    destruct (binary_round_aux float.prec float.emax s (Z.pos m) e loc_Exact)
      as [s'|s'| |s' m' e']; try tauto.
  - rewrite Z.max_r in He by lia.
    assert (Hez : ez <= fexp64 E) by lia. specialize (H Hez).
    destruct (binary_round_aux float.prec float.emax s (Z.pos mz) ez loc_Exact)
      as [s'|s'| |s' m' e']; try tauto.
    + split; [tauto|lia].
    + repeat split; try tauto. lia.
Qed.

Lemma binary_round_valid (s : bool) (m : positive) (e : Z) :
  float.valid (binary_round float.prec float.emax s m e) = true.
Proof.
  pose proof (binary_round_spec s m e) as H.
  destruct (binary_round float.prec float.emax s m e); cbn; tauto.
Qed.

Lemma canonical_exponent (m : positive) (e : Z) :
  bounded float.prec float.emax m e = true ->
  fexp64 (Zpos (digits2_pos m) + e) = e.
Proof.
  unfold bounded, canonical_mantissa. intros H.
  apply andb_true_iff in H. destruct H as [H _]. now apply Z.eqb_eq in H.
Qed.

Lemma leb_refl_finite (m : positive) (e : Z) :
  float.leb (S754_finite false m e) (S754_finite false m e) = true.
Proof.
  unfold float.leb, SFleb, SFcompare.
  now rewrite Z.compare_refl, Pos.compare_cont_refl.
Qed.

(** The sum of two positive numbers of the format is a number of the
    format (or infinity), not negative and not below the first of them:
    its exponent is at least the first one's, and at equal exponents so
    is its mantissa, which is how [SFcompare] orders them. *)
Lemma add_finite (mx my : positive) (ex ey : Z) :
  bounded float.prec float.emax mx ex = true ->
  bounded float.prec float.emax my ey = true ->
  float.valid (float.add (S754_finite false mx ex) (S754_finite false my ey))
  = true
  /\ nonneg (float.add (S754_finite false mx ex) (S754_finite false my ey))
  /\ float.leb (S754_finite false mx ex)
       (float.add (S754_finite false mx ex) (S754_finite false my ey))
     = true.
Proof.
  intros Hx Hy. apply canonical_exponent in Hx, Hy.
  unfold float.add, SFadd. cbn [cond_Zopp].
  set (ez := Z.min ex ey).
  destruct (shl_align_spec mx ex ez) as [Ha _].
  destruct (shl_align_spec my ey ez) as [Hb _].
  set (a := fst (shl_align mx ex ez)) in *.
  set (b := fst (shl_align my ey ez)) in *.
  rewrite Z.max_r in Ha by lia.
  cbn [Z.add binary_normalize].
  pose proof (binary_round_spec false (a + b) ez) as H.
  set (E := Zpos (digits2_pos (a + b)) + ez) in *.
  assert (Hda : Zpos (digits2_pos a) = Zpos (digits2_pos mx) + (ex - ez)).
  { apply digits_mul_pow2; [lia|exact Ha]. }
  assert (Hdab : Zpos (digits2_pos a) <= Zpos (digits2_pos (a + b))).
  { apply digits_le. lia. }
  assert (HE : ex <= fexp64 E /\ 1 - 1074 <= E).
  { rewrite !fexp64_eq in *. unfold E. lia. }
  destruct HE as [HE HE'].
  assert (Hez : ez <= fexp64 E) by lia.
  destruct (binary_round float.prec float.emax false (a + b) ez)
    as [s'|s'| |s' m' e'].
  - exfalso. destruct H as [_ H]. specialize (H Hez).
    apply digits_div_pow2_zero in H; [|lia].
    rewrite fexp64_eq in *. unfold E in *. lia.
  - subst s'. repeat split.
  - contradiction.
  - destruct H as (-> & Hbd & He' & Hm'). split; [exact Hbd|].
    split; [reflexivity|].
    unfold float.leb, SFleb, SFcompare.
    destruct (Z.compare_spec ex e') as [Heq|Hlt|Hgt]; [|reflexivity|lia].
    assert (Hm1 : Zpos mx <= Zpos m').
    { etransitivity; [|apply Hm'; lia].
      apply Z.div_le_lower_bound; [apply Z.pow_pos_nonneg; lia|].
      replace (fexp64 E - ez) with (ex - ez) by lia. lia. }
    change (Pos.compare_cont Eq mx m') with (Pos.compare mx m').
    destruct (Pos.compare_spec mx m'); try reflexivity. lia.
Qed.

(** [x <= x + y] for binary64 numbers [x] and [y] with [0 <= x] and
    [0 <= y] (zeros of either sign and infinity included), and the sum is
    again such a number. *)
Lemma add_nonneg (x y : float.t) :
  float.valid x = true -> float.valid y = true -> nonneg x -> nonneg y ->
  float.valid (float.add x y) = true
  /\ nonneg (float.add x y)
  /\ float.leb x (float.add x y) = true.
Proof.
  intros Vx Vy Nx Ny.
  destruct x as [sx|[|]| |[|] mx ex]; try discriminate Nx;
    destruct y as [sy|[|]| |[|] my ey]; try discriminate Ny.
  - destruct sx, sy; repeat split.
  - destruct sx; repeat split.
  - destruct sx; (split; [exact Vy|]); repeat split.
  - destruct sy; repeat split.
  - repeat split.
  - repeat split.
  - destruct sy; (split; [exact Vx|]); (split; [exact Nx|]);
      apply leb_refl_finite.
  - repeat split.
  - now apply add_finite.
Qed.

Lemma of_decimal_valid (s : bool) (m : N) (e10 : Z) :
  float.valid (float.of_decimal s m e10) = true.
Proof.
  unfold float.of_decimal. destruct m as [|p]; [reflexivity|].
  destruct e10 as [|k|k]; try apply binary_round_valid.
  destruct (Z.div_eucl _ _) as [q r].
  destruct (2 * q + _); try reflexivity. apply binary_round_valid.
Qed.

(** [float] only returns numbers of the format. *)
Lemma of_string_valid (x : string) (q : float.t) :
  float.of_string x = Ok q -> float.valid q = true.
Proof.
  unfold float.of_string.
  destruct (float.sign _) as [s cs].
  destruct (_ || _)%bool; [intros H; now inversion H|].
  destruct (String.eqb _ "nan"); [intros H; now inversion H|].
  destruct (float.number cs) as [[[m nfrac] r]|]; [|discriminate].
  destruct (float.exponent r) as [[e [|c r']]|]; try discriminate.
  intros H. inversion H. apply of_decimal_valid.
Qed.

Local Close Scope Z_scope.

(** ** Series only grow, and end at their running sum *)

Local Open Scope list_scope.

Lemma series_accumulate (ch ch' : channel) (b : datetime.t) (q : float.t)
  (st : locals) :
  series ch' (accumulate ch b q st)
  = if channel_eqb ch ch'
    then series ch' st
         ++ [StatisticData.mk b (float.add (running_sum ch st) q)]
    else series ch' st.
Proof. destruct ch, ch'; reflexivity. Qed.

Lemma running_sum_accumulate (ch ch' : channel) (b : datetime.t)
  (q : float.t) (st : locals) :
  running_sum ch' (accumulate ch b q st)
  = if channel_eqb ch ch' then float.add (running_sum ch st) q
    else running_sum ch' st.
Proof. destruct ch, ch'; reflexivity. Qed.

Lemma channel_eqb_eq (a b : channel) : channel_eqb a b = true -> a = b.
Proof. destruct a, b; cbn; congruence. Qed.

Lemma last_sum_snoc (l : list StatisticData.t) (p : StatisticData.t) :
  last_sum (l ++ [p]) = StatisticData.sum p.
Proof.
  unfold last_sum. rewrite map_app. cbn [map]. apply last_last.
Qed.

Lemma last_cons {A : Type} (a d : A) (l : list A) :
  last (a :: l) d = last l a.
Proof.
  revert a d. induction l as [|b l IH]; intros a d; [reflexivity|].
  change (last (a :: b :: l) d) with (last (b :: l) d).
  now rewrite !IH.
Qed.

Lemma Sorted_snoc {A : Type} (R : A -> A -> Prop) (a x : A) (l : list A) :
  Sorted R (a :: l) -> R (last l a) x -> Sorted R (a :: l ++ [x]).
Proof.
  revert a. induction l as [|b l IH]; intros a Hs Hx.
  - cbn in *. repeat constructor. exact Hx.
  - apply Sorted_inv in Hs. destruct Hs as [Hs Hd].
    apply HdRel_inv in Hd. cbn [app]. constructor.
    + apply IH; [exact Hs|]. now rewrite <- (last_cons b a l).
    + now constructor.
Qed.

Lemma consistent_initial : consistent initial.
Proof. intros []; reflexivity. Qed.

Lemma consistent_accumulate (ch : channel) (b : datetime.t) (q : float.t)
  (st : locals) :
  consistent st -> consistent (accumulate ch b q st).
Proof.
  intros H ch'. rewrite series_accumulate, running_sum_accumulate.
  destruct (channel_eqb ch ch'); [|apply H].
  now rewrite last_sum_snoc.
Qed.

Lemma loop_body_consistent (st st' : locals) (row : list string)
  (c : control) :
  loop_body st row = Ok (c, st') -> consistent st -> consistent st'.
Proof.
  intros H Hc. apply loop_body_cases in H.
  destruct H as [(_ & -> & _)|[(_ & -> & _)|H]]; try assumption.
  destruct H as (dt & flow & q & _ & _ & _ & _ & _ & ->).
  now apply consistent_accumulate.
Qed.

Lemma for_rows_consistent (csv_file : list (list string)) :
  forall st st',
    for_rows st csv_file = Ok st' -> consistent st -> consistent st'.
Proof.
  induction csv_file as [|row rest IH]; intros st st' H Hc; cbn in H.
  - inversion H. now subst.
  - destruct (loop_body st row) as [[[|] st1]|e] eqn:E; [| |discriminate].
    + apply (IH st1 st' H). exact (loop_body_consistent _ _ _ _ E Hc).
    + inversion H. subst st'. exact (loop_body_consistent _ _ _ _ E Hc).
Qed.

(** The loop only appends. *)
Lemma for_rows_grows (ch : channel) (csv_file : list (list string)) :
  forall st st',
    for_rows st csv_file = Ok st' ->
    exists l, series ch st' = series ch st ++ l.
Proof.
  induction csv_file as [|row rest IH]; intros st st' H; cbn in H.
  - inversion H. exists []. now rewrite app_nil_r.
  - destruct (loop_body st row) as [[[|] st1]|e] eqn:E; [| |discriminate].
    + destruct (IH st1 st' H) as [l Hl]. rewrite Hl.
      apply loop_body_cases in E.
      destruct E as [(_ & -> & _)|[(_ & -> & _)|E]]; eauto.
      destruct E as (dt & flow & q & _ & _ & _ & _ & _ & ->).
      rewrite series_accumulate.
      destruct (channel_eqb _ ch); eauto.
      rewrite <- app_assoc. eauto.
    + inversion H. subst st'. apply loop_body_cases in E.
      destruct E as [(_ & -> & _)|[(_ & -> & _)|E]];
        try (exists []; now rewrite app_nil_r).
      destruct E as (dt & flow & q & Hc & _). discriminate.
Qed.

(** ** Running sums never decrease *)

Lemma chain_initial (ch : channel) : chain ch initial.
Proof.
  destruct ch; (split; [repeat constructor|split; reflexivity]).
Qed.

Lemma chain_accumulate (ch ch' : channel) (b : datetime.t) (q : float.t)
  (st : locals) :
  consistent st -> float.valid q = true -> nonneg q ->
  chain ch st -> chain ch' st -> chain ch' (accumulate ch b q st).
Proof.
  intros Hc Vq Nq (_ & Vr & Nr) (Hs' & Vr' & Nr'). unfold chain.
  rewrite series_accumulate, running_sum_accumulate.
  destruct (channel_eqb ch ch') eqn:E; [|now repeat split].
  apply channel_eqb_eq in E. subst ch'.
  destruct (add_nonneg (running_sum ch st) q Vr Vq Nr Nq) as (Va & Na & La).
  split; [|now split].
  unfold sums. rewrite map_app. cbn [map StatisticData.sum].
  apply Sorted_snoc; [exact Hs'|].
  fold (last_sum (series ch st)). rewrite <- Hc. exact La.
Qed.

Lemma for_rows_chain (csv_file : list (list string)) :
  Forall (fun row => forall dt q,
              accepted row dt -> quantity row = Ok q -> nonneg q) csv_file ->
  forall st st',
    for_rows st csv_file = Ok st' ->
    consistent st -> (forall ch, chain ch st) -> forall ch, chain ch st'.
Proof.
  induction 1 as [|row rest Hrow _ IH]; intros st st' H Hc Hch; cbn in H.
  - inversion H. now subst.
  - destruct (loop_body st row) as [[c st1]|e] eqn:E; [|discriminate].
    assert (H1 : consistent st1 /\ forall ch, chain ch st1).
    { split; [exact (loop_body_consistent _ _ _ _ E Hc)|].
      apply loop_body_cases in E.
      destruct E as [(_ & -> & _)|[(_ & -> & _)|E]]; try assumption.
      destruct E as (dt & flow & q & _ & _ & Hacc & _ & Hq & ->).
      intros ch. apply chain_accumulate; auto.
      - unfold quantity in Hq.
        destruct (getitem row 12) as [s|]; [|discriminate].
        exact (of_string_valid s q Hq).
      - exact (Hrow dt q Hacc Hq). }
    destruct H1 as [Hc1 Hch1].
    destruct c; [exact (IH st1 st' H Hc1 Hch1)|].
    inversion H. now subst.
Qed.

(** C3: when the quantity of every accepted row parses to a number that
    is not negative, each of the three series handed to the recorder has
    cumulative sums that never decrease from one point to the next, the
    first of them not below the 0 that every running sum starts from. *)
Theorem running_sums_never_decrease (DOMAIN SENSOR_NAME : string)
  (hass hass' : recorder) (csv_file : list (list string)) :
  Forall (fun row => forall dt q,
              accepted row dt -> quantity row = Ok q -> nonneg q) csv_file ->
  update DOMAIN SENSOR_NAME hass csv_file = (hass', Ok tt) ->
  (forall ch, running_sum ch initial = float.zero)
  /\ exists solar day night,
      hass' = (hass ++ [(solarMetadata DOMAIN SENSOR_NAME, solar);
                        (dayMetadata DOMAIN SENSOR_NAME, day);
                        (nightMetadata DOMAIN SENSOR_NAME, night)])%list
      /\ Sorted le (float.zero :: sums solar)
      /\ Sorted le (float.zero :: sums day)
      /\ Sorted le (float.zero :: sums night).
Proof.
  intros Hq H. split; [intros []; reflexivity|].
  destruct (update_Ok _ _ _ _ _ H) as (st & Hst & ->).
  pose proof (for_rows_chain csv_file Hq initial st Hst consistent_initial
                chain_initial) as Hch.
  exists (series Solar st), (series Day st), (series Night st).
  split; [reflexivity|].
  split; [apply (Hch Solar)|]. split; [apply (Hch Day)|apply (Hch Night)].
Qed.

Lemma sample_document_update :
  update "meridian_energy" "Meridian Energy" [] sample_document
  = (sample_recorder, Ok tt).
Proof. vm_compute. reflexivity. Qed.

Lemma running_sums_never_decrease_witness :
  Forall (fun row => forall dt q,
              accepted row dt -> quantity row = Ok q -> nonneg q)
    sample_document
  /\ update "meridian_energy" "Meridian Energy" [] sample_document
     = (sample_recorder, Ok tt)
  /\ exists solar day night,
      sample_recorder
      = [(solarMetadata "meridian_energy" "Meridian Energy", solar);
         (dayMetadata "meridian_energy" "Meridian Energy", day);
         (nightMetadata "meridian_energy" "Meridian Energy", night)]
      /\ Sorted le (float.zero :: sums solar)
      /\ Sorted le (float.zero :: sums day)
      /\ Sorted le (float.zero :: sums night).
Proof.
  assert (Hq : Forall (fun row => forall dt q,
                           accepted row dt -> quantity row = Ok q -> nonneg q)
                 sample_document).
  { repeat constructor; intros dt q _ Hq; vm_compute in Hq;
      inversion Hq; reflexivity. }
  assert (Hu : update "meridian_energy" "Meridian Energy" [] sample_document
               = (sample_recorder, Ok tt)) by (vm_compute; reflexivity).
  split; [exact Hq|]. split; [exact Hu|].
  exact (proj2 (running_sums_never_decrease "meridian_energy"
                  "Meridian Energy" [] sample_recorder sample_document
                  Hq Hu)).
Defined.

(** ** Points of one bucket are kept apart *)

(** C7: two accepted rows of one document whose timestamps fall into the
    same bucket and that go to the same channel leave two points in that
    channel's series, in the order of the rows, both starting at that
    bucket; each carries the sum of the point before it in the series
    (0 when there is none) plus its own quantity. *)
Theorem same_bucket_points_stay_apart (DOMAIN SENSOR_NAME : string)
  (hass hass' : recorder) (pre mid post : list (list string))
  (r1 r2 : list string) (dt1 dt2 : datetime.t) (flow1 flow2 : string) :
  Forall (fun r => 2 <= List.length r) pre ->
  Forall (fun r => 2 <= List.length r) mid ->
  accepted r1 dt1 -> accepted r2 dt2 ->
  nth_error r1 6 = Some flow1 -> nth_error r2 6 = Some flow2 ->
  bucket dt1 = bucket dt2 ->
  channel_of flow1 (datetime.hour dt1) = channel_of flow2 (datetime.hour dt2) ->
  update DOMAIN SENSOR_NAME hass (pre ++ r1 :: mid ++ r2 :: post)
  = (hass', Ok tt) ->
  exists st q1 q2 l1 l2 l3,
    hass' = hass ++ [(solarMetadata DOMAIN SENSOR_NAME, series Solar st);
                     (dayMetadata DOMAIN SENSOR_NAME, series Day st);
                     (nightMetadata DOMAIN SENSOR_NAME, series Night st)]
    /\ quantity r1 = Ok q1 /\ quantity r2 = Ok q2
    /\ series (channel_of flow1 (datetime.hour dt1)) st
       = l1 ++ [StatisticData.mk (bucket dt1) (float.add (last_sum l1) q1)]
            ++ l2
            ++ [StatisticData.mk (bucket dt1)
                  (float.add
                     (last_sum
                        (l1 ++ [StatisticData.mk (bucket dt1)
                                  (float.add (last_sum l1) q1)] ++ l2))
                     q2)]
            ++ l3.
Proof.
  intros Hpre Hmid Ha1 Ha2 H61 H62 Hb Hch Hup.
  destruct (update_Ok _ _ _ _ _ Hup) as (st & Hst & ->).
  set (ch := channel_of flow1 (datetime.hour dt1)) in *.
  rewrite (for_rows_app pre _ Hpre) in Hst.
  destruct (for_rows initial pre) as [st0|e] eqn:E0; [|discriminate].
  cbn [bind for_rows] in Hst.
  destruct (pytz.overflows dt1) eqn:Hr1.
  { rewrite (loop_body_OverflowError st0 r1 dt1 Ha1 Hr1) in Hst.
    discriminate. }
  rewrite (loop_body_in_range st0 r1 dt1 flow1 Ha1 H61 Hr1) in Hst.
  destruct (quantity r1) as [q1|e] eqn:Eq1; [|discriminate].
  cbn [bind] in Hst. fold ch in Hst.
  set (st1 := accumulate ch (bucket dt1) q1 st0) in *.
  rewrite (for_rows_app mid _ Hmid) in Hst.
  destruct (for_rows st1 mid) as [st2|e] eqn:E2; [|discriminate].
  cbn [bind for_rows] in Hst.
  destruct (pytz.overflows dt2) eqn:Hr2.
  { rewrite (loop_body_OverflowError st2 r2 dt2 Ha2 Hr2) in Hst.
    discriminate. }
  rewrite (loop_body_in_range st2 r2 dt2 flow2 Ha2 H62 Hr2) in Hst.
  destruct (quantity r2) as [q2|e] eqn:Eq2; [|discriminate].
  cbn [bind] in Hst. rewrite <- Hch, <- Hb in Hst. fold ch in Hst.
  set (st3 := accumulate ch (bucket dt1) q2 st2) in *.
  assert (Hc0 : consistent st0)
    by exact (for_rows_consistent pre initial st0 E0 consistent_initial).
  assert (Hc2 : consistent st2).
  { apply (for_rows_consistent mid st1 st2 E2).
    now apply consistent_accumulate. }
  destruct (for_rows_grows ch mid st1 st2 E2) as [l2 Hl2].
  destruct (for_rows_grows ch post st3 st Hst) as [l3 Hl3].
  assert (H1 : series ch st1
               = series ch st0
                 ++ [StatisticData.mk (bucket dt1)
                       (float.add (last_sum (series ch st0)) q1)]).
  { unfold st1. rewrite series_accumulate, (Hc0 ch).
    now destruct ch. }
  assert (H3 : series ch st3
               = series ch st2
                 ++ [StatisticData.mk (bucket dt1)
                       (float.add (last_sum (series ch st2)) q2)]).
  { unfold st3. rewrite series_accumulate, (Hc2 ch).
    now destruct ch. }
  exists st, q1, q2, (series ch st0), l2, l3.
  split; [reflexivity|]. split; [reflexivity|]. split; [reflexivity|].
  rewrite Hl3, H3, Hl2, H1. now rewrite <- !app_assoc.
Qed.

Lemma same_bucket_points_stay_apart_witness :
  Forall (fun r => 2 <= List.length r) [hdr]
  /\ Forall (fun r => 2 <= List.length r) [estimate_row]
  /\ accepted day_row_a (datetime.mk 2023 3 15 10 0 0 0 None)
  /\ accepted day_row_b (datetime.mk 2023 3 15 10 30 0 0 None)
  /\ nth_error day_row_a 6 = Some "E"
  /\ nth_error day_row_b 6 = Some "E"
  /\ bucket (datetime.mk 2023 3 15 10 0 0 0 None)
     = bucket (datetime.mk 2023 3 15 10 30 0 0 None)
  /\ channel_of "E" 10 = channel_of "E" 10
  /\ update "meridian_energy" "Meridian Energy" []
       ([hdr] ++ day_row_a :: [estimate_row] ++ day_row_b
          :: [night_row; solar_row; summary_row])
     = (sample_recorder, Ok tt)
  /\ exists st q1 q2 l1 l2 l3,
      sample_recorder
      = [(solarMetadata "meridian_energy" "Meridian Energy", series Solar st);
         (dayMetadata "meridian_energy" "Meridian Energy", series Day st);
         (nightMetadata "meridian_energy" "Meridian Energy",
          series Night st)]
      /\ quantity day_row_a = Ok q1 /\ quantity day_row_b = Ok q2
      /\ series Day st
         = l1 ++ [StatisticData.mk (at_hour 10) (float.add (last_sum l1) q1)]
              ++ l2
              ++ [StatisticData.mk (at_hour 10)
                    (float.add
                       (last_sum
                          (l1 ++ [StatisticData.mk (at_hour 10)
                                    (float.add (last_sum l1) q1)] ++ l2))
                       q2)]
              ++ l3.
Proof.
  assert (Hpre : Forall (fun r => 2 <= List.length r) [hdr])
    by (repeat constructor; cbn; lia).
  assert (Hmid : Forall (fun r => 2 <= List.length r) [estimate_row])
    by (repeat constructor; cbn; lia).
  assert (Ha1 : accepted day_row_a (datetime.mk 2023 3 15 10 0 0 0 None))
    by accepted_row.
  assert (Ha2 : accepted day_row_b (datetime.mk 2023 3 15 10 30 0 0 None))
    by accepted_row.
  assert (Hu : update "meridian_energy" "Meridian Energy" []
                 ([hdr] ++ day_row_a :: [estimate_row] ++ day_row_b
                    :: [night_row; solar_row; summary_row])
               = (sample_recorder, Ok tt)) by (vm_compute; reflexivity).
  repeat (split; [first [assumption | reflexivity]|]).
  exact (same_bucket_points_stay_apart "meridian_energy" "Meridian Energy"
           [] sample_recorder [hdr] [estimate_row]
           [night_row; solar_row; summary_row] day_row_a day_row_b
           (datetime.mk 2023 3 15 10 0 0 0 None)
           (datetime.mk 2023 3 15 10 30 0 0 None) "E" "E"
           Hpre Hmid Ha1 Ha2 eq_refl eq_refl eq_refl eq_refl Hu).
Defined.

(** * Further properties *)

Lemma update_emitted (DOMAIN SENSOR_NAME : string) (hass : recorder)
  (csv_file : list (list string)) (st : locals) :
  for_rows initial csv_file = Ok st ->
  update DOMAIN SENSOR_NAME hass csv_file
  = (hass ++ emitted DOMAIN SENSOR_NAME st, Ok tt).
Proof.
  intros H. unfold update, async_add_external_statistics, emitted.
  rewrite H. now rewrite <- !app_assoc.
Qed.

Lemma update_returns (DOMAIN SENSOR_NAME : string) (hass hass' : recorder)
  (csv_file : list (list string)) :
  update DOMAIN SENSOR_NAME hass csv_file = (hass', Ok tt) ->
  exists st,
    for_rows initial csv_file = Ok st
    /\ hass' = hass ++ emitted DOMAIN SENSOR_NAME st.
Proof.
  intros H. destruct (update_Ok _ _ _ _ _ H) as (st & Hst & ->).
  now exists st.
Qed.

(** A pass depends on the accumulators only through what it adds to
    them. *)
Lemma loop_body_shape (row : list string) :
  exists f, forall st, loop_body st row = apply_effect f st.
Proof.
  destruct (Nat.lt_ge_cases (List.length row) 2) as [Hlt|Hge].
  { exists Stops. intros st. now apply loop_body_short. }
  destruct (nth_error row 0) as [tag|] eqn:E0.
  2:{ apply nth_error_None in E0. lia. }
  destruct (String.eqb_spec tag "HDR") as [->|Hh].
  { exists Skips. intros st. now apply loop_body_HDR. }
  assert (H0 : nth_error row 0 <> Some "HDR") by congruence.
  destruct (nth_error row 11) as [status|] eqn:E11.
  2:{ exists (Fails IndexError). intros st. apply loop_body_IndexError.
      split; [assumption|]. split; [assumption|]. left.
      apply nth_error_None in E11. lia. }
  destruct (loop_body_data initial row status E11 H0)
    as (flow & ts & H6 & H9 & _).
  assert (E : forall st,
             loop_body st row
             = if negb (String.eqb status "RD") then Ok (Continue, st)
               else
                 start_date <- datetime.strptime ts "%d/%m/%Y %H:%M:%S" ;;
                 if (datetime.minute start_date =? 59)%nat
                 then Ok (Continue, st)
                 else
                   _ <- pytz.localize (pytz.timezone "Pacific/Auckland")
                          start_date ;;
                   q <- quantity row ;;
                   Ok (Continue,
                       accumulate
                         (channel_of flow (datetime.hour start_date))
                         (bucket start_date) q st)).
  { intros st.
    destruct (loop_body_data st row status E11 H0)
      as (flow' & ts' & H6' & H9' & E).
    rewrite E. assert (flow' = flow) as -> by congruence.
    now assert (ts' = ts) as -> by congruence. }
  destruct (negb (String.eqb status "RD")).
  { exists Skips. exact E. }
  destruct (datetime.strptime ts "%d/%m/%Y %H:%M:%S") as [dt|e].
  2:{ exists (Fails e). exact E. }
  cbn [bind] in E. destruct (datetime.minute dt =? 59)%nat.
  { exists Skips. exact E. }
  destruct (pytz.localize (pytz.timezone "Pacific/Auckland") dt) as [d|e].
  2:{ exists (Fails e). exact E. }
  cbn [bind] in E. destruct (quantity row) as [q|e].
  - exists (Adds (channel_of flow (datetime.hour dt)) (bucket dt) q). exact E.
  - exists (Fails e). exact E.
Qed.

(** Rows on which every pass does the same can stand for each other. *)
Lemma for_rows_replace (r1 r2 : list string) :
  (forall st, loop_body st r1 = loop_body st r2) ->
  forall pre post st,
    for_rows st (pre ++ r1 :: post) = for_rows st (pre ++ r2 :: post).
Proof.
  intros Hr pre post. induction pre as [|r pre IH]; intros st; cbn.
  - now rewrite Hr.
  - destruct (loop_body st r) as [[[|] st']|e]; auto.
Qed.

(** ** Header lines and record types *)

(** X1: a header line of at least two fields is ignored wherever it
    stands and whatever else it holds: the update is that of the
    document without it. *)
Theorem header_row_is_ignored (DOMAIN SENSOR_NAME : string)
  (hass : recorder) (pre post : list (list string)) (row : list string) :
  2 <= List.length row ->
  nth_error row 0 = Some "HDR" ->
  update DOMAIN SENSOR_NAME hass (pre ++ row :: post)
  = update DOMAIN SENSOR_NAME hass (pre ++ post).
Proof.
  intros Hlen H0. apply update_for_rows, for_rows_skip.
  intros st. now apply loop_body_HDR.
Qed.

Lemma header_row_is_ignored_witness :
  2 <= List.length short_hdr
  /\ nth_error short_hdr 0 = Some "HDR"
  /\ update "meridian_energy" "Meridian Energy" []
       ([day_row] ++ short_hdr :: [night_row])
     = update "meridian_energy" "Meridian Energy" []
         ([day_row] ++ [night_row]).
Proof.
  assert (Hlen : 2 <= List.length short_hdr) by (cbn; lia).
  split; [exact Hlen|]. split; [reflexivity|].
  exact (header_row_is_ignored "meridian_energy" "Meridian Energy" []
           [day_row] [night_row] short_hdr Hlen eq_refl).
Defined.

(** X2: the record type is no filter: a row whose first field is not
    "HDR" is treated the same whatever that field is, "DET" or not. *)
Theorem record_type_is_no_filter (tag tag' : string) (fields : list string) :
  tag <> "HDR" -> tag' <> "HDR" ->
  (forall st, loop_body st (tag :: fields) = loop_body st (tag' :: fields))
  /\ forall DOMAIN SENSOR_NAME hass pre post,
      update DOMAIN SENSOR_NAME hass (pre ++ (tag :: fields) :: post)
      = update DOMAIN SENSOR_NAME hass (pre ++ (tag' :: fields) :: post).
Proof.
  intros Ht Ht'.
  assert (H : forall st,
             loop_body st (tag :: fields) = loop_body st (tag' :: fields)).
  { intros st. unfold loop_body, getitem. cbn [List.length nth_error bind].
    now rewrite (proj2 (String.eqb_neq _ _) Ht),
      (proj2 (String.eqb_neq _ _) Ht'). }
  split; [exact H|]. intros. now apply update_for_rows, for_rows_replace.
Qed.

Lemma record_type_is_no_filter_witness :
  "DET" <> "HDR" /\ "TRL" <> "HDR"
  /\ update "meridian_energy" "Meridian Energy" []
       ([hdr] ++ ("DET" :: tl day_row) :: [night_row])
     = update "meridian_energy" "Meridian Energy" []
         ([hdr] ++ ("TRL" :: tl day_row) :: [night_row]).
Proof.
  assert (H1 : "DET" <> "HDR") by discriminate.
  assert (H2 : "TRL" <> "HDR") by discriminate.
  split; [exact H1|]. split; [exact H2|].
  exact (proj2 (record_type_is_no_filter "DET" "TRL" (tl day_row) H1 H2)
           "meridian_energy" "Meridian Energy" [] [hdr] [night_row]).
Defined.

(** ** Fields after the quantity *)

Lemma getitem_app (row extra : list string) (i : nat) :
  i < List.length row -> getitem (row ++ extra) i = getitem row i.
Proof.
  intros H. unfold getitem. now rewrite nth_error_app1.
Qed.

(** X3: fields after index 12 are not read: a row of at least 13 fields
    is treated the same with any further fields appended. *)
Theorem further_fields_are_ignored (row extra : list string) :
  13 <= List.length row ->
  (forall st, loop_body st (row ++ extra) = loop_body st row)
  /\ forall DOMAIN SENSOR_NAME hass pre post,
      update DOMAIN SENSOR_NAME hass (pre ++ (row ++ extra) :: post)
      = update DOMAIN SENSOR_NAME hass (pre ++ row :: post).
Proof.
  intros Hlen.
  assert (H : forall st, loop_body st (row ++ extra) = loop_body st row).
  { intros st. unfold loop_body.
    rewrite !getitem_app by lia.
    rewrite (proj2 (Nat.ltb_ge (List.length (row ++ extra)) 2))
      by (rewrite length_app; lia).
    now rewrite (proj2 (Nat.ltb_ge (List.length row) 2)) by lia. }
  split; [exact H|]. intros. now apply update_for_rows, for_rows_replace.
Qed.

Lemma further_fields_are_ignored_witness :
  13 <= List.length day_row
  /\ update "meridian_energy" "Meridian Energy" []
       ([hdr] ++ (day_row ++ ["0.25"; "kVArh"]) :: [night_row])
     = update "meridian_energy" "Meridian Energy" []
         ([hdr] ++ day_row :: [night_row]).
Proof.
  assert (Hlen : 13 <= List.length day_row) by (cbn; lia).
  split; [exact Hlen|].
  exact (proj2 (further_fields_are_ignored day_row ["0.25"; "kVArh"] Hlen)
           "meridian_energy" "Meridian Energy" [] [hdr] [night_row]).
Defined.

(** ** Timestamps that do not parse *)

(** X4: a row of read status "RD" that is not a header and whose
    timestamp (field 9) does not parse makes every pass raise ValueError,
    also when it has no field 12.  When no row before it ends the loop,
    the update raises and hands nothing to the recorder; the error is
    that ValueError when the rows before it raise none. *)
Theorem unparsable_timestamp_aborts (DOMAIN SENSOR_NAME : string)
  (hass : recorder) (pre post : list (list string)) (row : list string)
  (ts : string) :
  Forall (fun r => 2 <= List.length r) pre ->
  nth_error row 0 <> Some "HDR" ->
  nth_error row 11 = Some "RD" ->
  nth_error row 9 = Some ts ->
  datetime.strptime ts "%d/%m/%Y %H:%M:%S" = Raise ValueError ->
  (forall st, loop_body st row = Raise ValueError)
  /\ (exists e,
         update DOMAIN SENSOR_NAME hass (pre ++ row :: post) = (hass, Raise e))
  /\ (forall st,
         for_rows initial pre = Ok st ->
         update DOMAIN SENSOR_NAME hass (pre ++ row :: post)
         = (hass, Raise ValueError)).
Proof.
  intros Hpre H0 H11 H9 Hts.
  assert (Hb : forall st, loop_body st row = Raise ValueError).
  { intros st.
    destruct (loop_body_data st row "RD" H11 H0) as (flow & ts' & _ & H9' & E).
    rewrite E. assert (ts' = ts) as -> by congruence.
    now rewrite Hts. }
  split; [exact Hb|]. now apply update_raising_row.
Qed.

Lemma unparsable_timestamp_aborts_witness :
  Forall (fun r => 2 <= List.length r) [hdr; day_row]
  /\ nth_error iso_timestamp_row 0 <> Some "HDR"
  /\ nth_error iso_timestamp_row 11 = Some "RD"
  /\ nth_error iso_timestamp_row 9 = Some "2023-03-15 11:00:00"
  /\ datetime.strptime "2023-03-15 11:00:00" "%d/%m/%Y %H:%M:%S"
     = Raise ValueError
  /\ update "meridian_energy" "Meridian Energy" []
       ([hdr; day_row] ++ iso_timestamp_row :: [night_row])
     = ([], Raise ValueError).
Proof.
  assert (Hpre : Forall (fun r => 2 <= List.length r) [hdr; day_row])
    by (repeat constructor; cbn; lia).
  assert (H0 : nth_error iso_timestamp_row 0 <> Some "HDR")
    by (cbn; congruence).
  assert (Hts : datetime.strptime "2023-03-15 11:00:00" "%d/%m/%Y %H:%M:%S"
                = Raise ValueError) by (vm_compute; reflexivity).
  assert (Hst : for_rows initial [hdr; day_row]
                = Ok (mk_locals [] float.zero
                        [StatisticData.mk (at_hour 10) f1_5] f1_5
                        [] float.zero)) by (vm_compute; reflexivity).
  split; [exact Hpre|]. split; [exact H0|]. split; [reflexivity|].
  split; [reflexivity|]. split; [exact Hts|].
  exact (proj2 (proj2 (unparsable_timestamp_aborts "meridian_energy"
                         "Meridian Energy" [] [hdr; day_row] [night_row]
                         iso_timestamp_row "2023-03-15 11:00:00"
                         Hpre H0 eq_refl eq_refl Hts)) _ Hst).
Defined.

(** ** Dates that cannot be localized *)

Lemma overflows_edge_date (dt : datetime.t) :
  (datetime.year dt = datetime.MINYEAR
   /\ datetime.month dt = 1 /\ datetime.day dt = 1)
  \/ (datetime.year dt = datetime.MAXYEAR
      /\ datetime.month dt = 12 /\ datetime.day dt = 31) ->
  pytz.overflows dt = true.
Proof.
  unfold pytz.overflows, pytz.day_before_overflows, pytz.day_after_overflows.
  intros [(Hy & Hm & Hd)|(Hy & Hm & Hd)]; rewrite Hy, Hm, Hd.
  - now rewrite !Nat.eqb_refl.
  - rewrite !Nat.eqb_refl. apply orb_true_r.
Qed.

(** X12: a row of read status "RD" that is not a header and whose
    timestamp (field 9) parses, with a minute other than 59, to a time on
    1 January of year 1 or on 31 December of year 9999 makes every pass
    raise OverflowError when the timestamp is localized, whatever its
    quantity is and also when it has no field 12.  When no row before it
    ends the loop, the update raises and hands nothing to the recorder;
    the error is that OverflowError when the rows before it raise none. *)
Theorem edge_date_row_aborts (DOMAIN SENSOR_NAME : string)
  (hass : recorder) (pre post : list (list string)) (row : list string)
  (ts : string) (dt : datetime.t) :
  Forall (fun r => 2 <= List.length r) pre ->
  nth_error row 0 <> Some "HDR" ->
  nth_error row 11 = Some "RD" ->
  nth_error row 9 = Some ts ->
  datetime.strptime ts "%d/%m/%Y %H:%M:%S" = Ok dt ->
  datetime.minute dt <> 59 ->
  (datetime.year dt = datetime.MINYEAR
   /\ datetime.month dt = 1 /\ datetime.day dt = 1)
  \/ (datetime.year dt = datetime.MAXYEAR
      /\ datetime.month dt = 12 /\ datetime.day dt = 31) ->
  (forall st, loop_body st row = Raise OverflowError)
  /\ (exists e,
         update DOMAIN SENSOR_NAME hass (pre ++ row :: post) = (hass, Raise e))
  /\ (forall st,
         for_rows initial pre = Ok st ->
         update DOMAIN SENSOR_NAME hass (pre ++ row :: post)
         = (hass, Raise OverflowError)).
Proof.
  intros Hpre H0 H11 H9 Hts Hm Hedge.
  assert (Hb : forall st, loop_body st row = Raise OverflowError).
  { intros st.
    destruct (loop_body_data st row "RD" H11 H0) as (flow & ts' & _ & H9' & E).
    rewrite E. assert (ts' = ts) as -> by congruence.
    rewrite Hts. cbn [bind negb String.eqb Ascii.eqb Bool.eqb].
    rewrite (proj2 (Nat.eqb_neq _ _) Hm).
    now rewrite (localize_OverflowError _ dt (overflows_edge_date dt Hedge)). }
  split; [exact Hb|]. now apply update_raising_row.
Qed.

Lemma edge_date_row_aborts_witness :
  Forall (fun r => 2 <= List.length r) [hdr; day_row]
  /\ nth_error first_day_bad_quantity 0 <> Some "HDR"
  /\ nth_error first_day_bad_quantity 11 = Some "RD"
  /\ nth_error first_day_bad_quantity 9 = Some "01/01/0001 00:00:00"
  /\ datetime.strptime "01/01/0001 00:00:00" "%d/%m/%Y %H:%M:%S"
     = Ok (datetime.mk 1 1 1 0 0 0 0 None)
  /\ datetime.minute (datetime.mk 1 1 1 0 0 0 0 None) <> 59
  /\ datetime.year (datetime.mk 1 1 1 0 0 0 0 None) = datetime.MINYEAR
  /\ update "meridian_energy" "Meridian Energy" []
       ([hdr; day_row] ++ first_day_bad_quantity :: [night_row])
     = ([], Raise OverflowError).
Proof.
  assert (Hpre : Forall (fun r => 2 <= List.length r) [hdr; day_row])
    by (repeat constructor; cbn; lia).
  assert (H0 : nth_error first_day_bad_quantity 0 <> Some "HDR")
    by (cbn; congruence).
  assert (Hts : datetime.strptime "01/01/0001 00:00:00" "%d/%m/%Y %H:%M:%S"
                = Ok (datetime.mk 1 1 1 0 0 0 0 None))
    by (vm_compute; reflexivity).
  assert (Hm : datetime.minute (datetime.mk 1 1 1 0 0 0 0 None) <> 59)
    by (cbn; lia).
  assert (Hst : for_rows initial [hdr; day_row]
                = Ok (mk_locals [] float.zero
                        [StatisticData.mk (at_hour 10) f1_5] f1_5
                        [] float.zero)) by (vm_compute; reflexivity).
  split; [exact Hpre|]. split; [exact H0|]. split; [reflexivity|].
  split; [reflexivity|]. split; [exact Hts|]. split; [exact Hm|].
  split; [reflexivity|].
  exact (proj2 (proj2 (edge_date_row_aborts "meridian_energy"
                         "Meridian Energy" [] [hdr; day_row] [night_row]
                         first_day_bad_quantity "01/01/0001 00:00:00" _
                         Hpre H0 eq_refl eq_refl Hts Hm
                         (or_introl (conj eq_refl (conj eq_refl eq_refl)))))
           _ Hst).
Defined.

(** ** What every point looks like *)

Lemma Forall_snoc {A : Type} (P : A -> Prop) (l : list A) (x : A) :
  Forall P l -> P x -> Forall P (l ++ [x]).
Proof.
  intros Hl Hx. apply Forall_app. split; [exact Hl|]. now constructor.
Qed.

(** A property of the points that holds for whatever an accepted row
    appends is kept by the loop. *)
Lemma for_rows_points (P : channel -> StatisticData.t -> Prop) :
  (forall dt flow s,
      P (channel_of flow (datetime.hour dt))
        (StatisticData.mk (bucket dt) s)) ->
  forall csv_file st st',
    for_rows st csv_file = Ok st' ->
    (forall ch, Forall (P ch) (series ch st)) ->
    forall ch, Forall (P ch) (series ch st').
Proof.
  intros HP. induction csv_file as [|row rest IH]; intros st st' H Hst;
    cbn in H.
  - inversion H. now subst.
  - destruct (loop_body st row) as [[c st1]|e] eqn:E; [|discriminate].
    assert (H1 : forall ch, Forall (P ch) (series ch st1)).
    { apply loop_body_cases in E.
      destruct E as [(_ & -> & _)|[(_ & -> & _)|E]]; try assumption.
      destruct E as (dt & flow & q & _ & _ & _ & _ & _ & ->).
      intros ch. rewrite series_accumulate.
      destruct (channel_eqb _ ch) eqn:Ec; [|apply Hst].
      apply channel_eqb_eq in Ec. subst ch.
      apply Forall_snoc; [apply Hst|apply HP]. }
    destruct c; [exact (IH st1 st' H H1)|].
    inversion H. now subst.
Qed.

(** X5: every point handed to the recorder starts at a full hour of
    Pacific/Auckland: minute, second and microsecond 0. *)
Theorem points_start_on_the_hour (DOMAIN SENSOR_NAME : string)
  (hass hass' : recorder) (csv_file : list (list string)) :
  update DOMAIN SENSOR_NAME hass csv_file = (hass', Ok tt) ->
  exists st,
    hass' = hass ++ emitted DOMAIN SENSOR_NAME st
    /\ forall ch, Forall on_the_hour (series ch st).
Proof.
  intros H. destruct (update_returns _ _ _ _ _ H) as (st & Hst & ->).
  exists st. split; [reflexivity|].
  apply (for_rows_points (fun _ => on_the_hour)) with csv_file initial.
  - intros dt flow s. repeat split.
  - exact Hst.
  - intros []; constructor.
Qed.

Lemma points_start_on_the_hour_witness :
  update "meridian_energy" "Meridian Energy" [] sample_document
  = (sample_recorder, Ok tt)
  /\ exists st,
      sample_recorder = [] ++ emitted "meridian_energy" "Meridian Energy" st
      /\ forall ch, Forall on_the_hour (series ch st).
Proof.
  assert (Hu : update "meridian_energy" "Meridian Energy" [] sample_document
               = (sample_recorder, Ok tt)) by (vm_compute; reflexivity).
  split; [exact Hu|].
  exact (points_start_on_the_hour "meridian_energy" "Meridian Energy" []
           sample_recorder sample_document Hu).
Defined.

Lemma channel_of_in_rate_hours (dt : datetime.t) (flow : string)
  (s : float.t) :
  in_rate_hours (channel_of flow (datetime.hour dt))
    (StatisticData.mk (bucket dt) s).
Proof.
  unfold channel_of, night_hours.
  destruct (String.eqb flow "I"); [exact I|].
  destruct (Nat.leb_spec 21 (datetime.hour dt));
    destruct (Nat.ltb_spec (datetime.hour dt) 7); cbn; lia.
Qed.

(** X6: the Day series only holds points that start from 07:00 to 20:00,
    the Night series only points that start from 21:00 to 06:00. *)
Theorem series_keep_to_their_hours (DOMAIN SENSOR_NAME : string)
  (hass hass' : recorder) (csv_file : list (list string)) :
  update DOMAIN SENSOR_NAME hass csv_file = (hass', Ok tt) ->
  exists st,
    hass' = hass ++ emitted DOMAIN SENSOR_NAME st
    /\ Forall (fun p => 7 <= datetime.hour (StatisticData.start p) < 21)
         (series Day st)
    /\ Forall (fun p => 21 <= datetime.hour (StatisticData.start p)
                        \/ datetime.hour (StatisticData.start p) < 7)
         (series Night st).
Proof.
  intros H. destruct (update_returns _ _ _ _ _ H) as (st & Hst & ->).
  exists st. split; [reflexivity|].
  pose proof (for_rows_points in_rate_hours channel_of_in_rate_hours
                csv_file initial st Hst) as Hp.
  assert (H0 : forall ch, Forall (in_rate_hours ch) (series ch initial))
    by (intros []; constructor).
  split; [exact (Hp H0 Day)|exact (Hp H0 Night)].
Qed.

Lemma series_keep_to_their_hours_witness :
  update "meridian_energy" "Meridian Energy" [] sample_document
  = (sample_recorder, Ok tt)
  /\ exists st,
      sample_recorder = [] ++ emitted "meridian_energy" "Meridian Energy" st
      /\ Forall (fun p => 7 <= datetime.hour (StatisticData.start p) < 21)
           (series Day st)
      /\ Forall (fun p => 21 <= datetime.hour (StatisticData.start p)
                          \/ datetime.hour (StatisticData.start p) < 7)
           (series Night st).
Proof.
  assert (Hu : update "meridian_energy" "Meridian Energy" [] sample_document
               = (sample_recorder, Ok tt)) by (vm_compute; reflexivity).
  split; [exact Hu|].
  exact (series_keep_to_their_hours "meridian_energy" "Meridian Energy" []
           sample_recorder sample_document Hu).
Defined.

(** ** Documents that grow *)

Lemma for_rows_extend (ch : channel) (pre post : list (list string)) :
  forall st st1 st2,
    for_rows st pre = Ok st1 ->
    for_rows st (pre ++ post) = Ok st2 ->
    exists l, series ch st2 = series ch st1 ++ l.
Proof.
  induction pre as [|r pre IH]; intros st st1 st2 H1 H2; cbn in H1, H2.
  - inversion H1. subst st1. exact (for_rows_grows ch post st st2 H2).
  - destruct (loop_body st r) as [[[|] st']|e]; [| |discriminate].
    + exact (IH st' st1 st2 H1 H2).
    + exists []. rewrite app_nil_r. congruence.
Qed.

Lemma for_rows_extend_Raise (pre post : list (list string)) (e : exn) :
  forall st, for_rows st pre = Raise e -> for_rows st (pre ++ post) = Raise e.
Proof.
  induction pre as [|r pre IH]; intros st H; cbn in H |- *; [discriminate|].
  destruct (loop_body st r) as [[[|] st']|e']; auto.
Qed.

(** X7: rows appended to a document change nothing of what it gave: when
    both updates return, each series of the longer document begins with
    the series of the shorter one, points and cumulative sums alike. *)
Theorem appended_rows_keep_earlier_points (DOMAIN SENSOR_NAME : string)
  (hass hass1 hass2 : recorder) (pre post : list (list string)) :
  update DOMAIN SENSOR_NAME hass pre = (hass1, Ok tt) ->
  update DOMAIN SENSOR_NAME hass (pre ++ post) = (hass2, Ok tt) ->
  exists st1 st2,
    hass1 = hass ++ emitted DOMAIN SENSOR_NAME st1
    /\ hass2 = hass ++ emitted DOMAIN SENSOR_NAME st2
    /\ forall ch, exists l, series ch st2 = series ch st1 ++ l.
Proof.
  intros H1 H2.
  destruct (update_returns _ _ _ _ _ H1) as (st1 & Hst1 & ->).
  destruct (update_returns _ _ _ _ _ H2) as (st2 & Hst2 & ->).
  exists st1, st2. split; [reflexivity|]. split; [reflexivity|].
  intros ch. exact (for_rows_extend ch pre post initial st1 st2 Hst1 Hst2).
Qed.

Lemma appended_rows_keep_earlier_points_witness :
  update "meridian_energy" "Meridian Energy" [] [hdr; day_row_a]
  = ([(solarMetadata "meridian_energy" "Meridian Energy", []);
      (dayMetadata "meridian_energy" "Meridian Energy",
       [StatisticData.mk (at_hour 10) f1_0]);
      (nightMetadata "meridian_energy" "Meridian Energy", [])], Ok tt)
  /\ update "meridian_energy" "Meridian Energy" []
       ([hdr; day_row_a]
          ++ [estimate_row; day_row_b; night_row; solar_row; summary_row])
     = (sample_recorder, Ok tt)
  /\ exists st1 st2,
      sample_recorder = [] ++ emitted "meridian_energy" "Meridian Energy" st2
      /\ forall ch, exists l, series ch st2 = series ch st1 ++ l.
Proof.
  assert (H1 : update "meridian_energy" "Meridian Energy" [] [hdr; day_row_a]
               = ([(solarMetadata "meridian_energy" "Meridian Energy", []);
                   (dayMetadata "meridian_energy" "Meridian Energy",
                    [StatisticData.mk (at_hour 10) f1_0]);
                   (nightMetadata "meridian_energy" "Meridian Energy", [])],
                  Ok tt)) by (vm_compute; reflexivity).
  assert (H2 : update "meridian_energy" "Meridian Energy" []
                 ([hdr; day_row_a]
                    ++ [estimate_row; day_row_b; night_row; solar_row;
                        summary_row])
               = (sample_recorder, Ok tt)) by (vm_compute; reflexivity).
  split; [exact H1|]. split; [exact H2|].
  destruct (appended_rows_keep_earlier_points _ _ _ _ _ _ _ H1 H2)
    as (st1 & st2 & _ & Hh & Hs).
  exists st1, st2. split; [exact Hh|exact Hs].
Defined.

(** X8: rows appended to a document on which the update raises cannot
    make it return: the update of the longer document raises the same
    error and hands nothing to the recorder. *)
Theorem appended_rows_keep_the_error (DOMAIN SENSOR_NAME : string)
  (hass hass' : recorder) (pre post : list (list string)) (e : exn) :
  update DOMAIN SENSOR_NAME hass pre = (hass', Raise e) ->
  update DOMAIN SENSOR_NAME hass (pre ++ post) = (hass, Raise e).
Proof.
  unfold update. destruct (for_rows initial pre) as [st|e'] eqn:E;
    [discriminate|].
  intros H. inversion H. subst e'.
  now rewrite (for_rows_extend_Raise pre post e initial E).
Qed.

Lemma appended_rows_keep_the_error_witness :
  update "meridian_energy" "Meridian Energy" [] [hdr; bad_quantity_row]
  = ([], Raise ValueError)
  /\ update "meridian_energy" "Meridian Energy" []
       ([hdr; bad_quantity_row] ++ [day_row; night_row])
     = ([], Raise ValueError).
Proof.
  assert (H : update "meridian_energy" "Meridian Energy" []
                [hdr; bad_quantity_row] = ([], Raise ValueError))
    by (vm_compute; reflexivity).
  split; [exact H|].
  exact (appended_rows_keep_the_error "meridian_energy" "Meridian Energy"
           [] [] [hdr; bad_quantity_row] [day_row; night_row] ValueError H).
Defined.

(** ** Channels do not touch each other *)

Lemma channel_eqb_neq (a b : channel) : a <> b -> channel_eqb a b = false.
Proof. destruct a, b; cbn; congruence. Qed.

Lemma agree_refl (ch : channel) (st : locals) : agree ch st st.
Proof. now split. Qed.

Lemma agree_accumulate (ch ch0 : channel) (b : datetime.t) (q : float.t)
  (st1 st2 : locals) :
  agree ch st1 st2 ->
  agree ch (accumulate ch0 b q st1) (accumulate ch0 b q st2).
Proof.
  intros [Hs Hr]. unfold agree.
  rewrite !series_accumulate, !running_sum_accumulate.
  destruct (channel_eqb ch0 ch) eqn:E; [|now split].
  apply channel_eqb_eq in E. subst ch0. rewrite Hs, Hr. now split.
Qed.

Lemma agree_accumulate_other (ch ch0 : channel) (b : datetime.t)
  (q : float.t) (st : locals) :
  ch <> ch0 -> agree ch (accumulate ch0 b q st) st.
Proof.
  intros Hn. unfold agree.
  rewrite series_accumulate, running_sum_accumulate.
  rewrite channel_eqb_neq by congruence. now split.
Qed.

(** Two runs of the loop over the same rows, from accumulators that
    agree for a channel, end alike and agree for that channel. *)
Lemma for_rows_agree (ch : channel) (rows : list (list string)) :
  forall st1 st2,
    agree ch st1 st2 ->
    match for_rows st1 rows, for_rows st2 rows with
    | Ok a, Ok b => agree ch a b
    | Raise e1, Raise e2 => e1 = e2
    | _, _ => False
    end.
Proof.
  induction rows as [|r rows IH]; intros st1 st2 H; cbn; [exact H|].
  destruct (loop_body_shape r) as [f Hf]. rewrite !Hf.
  destruct f as [| |e|ch0 b q]; cbn [apply_effect].
  - exact H.
  - now apply IH.
  - reflexivity.
  - apply IH. now apply agree_accumulate.
Qed.

Lemma for_rows_without (ch ch0 : channel) (b : datetime.t) (q : float.t)
  (row : list string) (pre post : list (list string)) :
  (forall st, loop_body st row = Ok (Continue, accumulate ch0 b q st)) ->
  ch <> ch0 ->
  forall st,
    match for_rows st (pre ++ row :: post), for_rows st (pre ++ post) with
    | Ok a, Ok b => agree ch a b
    | Raise e1, Raise e2 => e1 = e2
    | _, _ => False
    end.
Proof.
  intros Hrow Hn. induction pre as [|r pre IH]; intros st; cbn.
  - rewrite Hrow. apply for_rows_agree. now apply agree_accumulate_other.
  - destruct (loop_body st r) as [[[|] st']|e].
    + apply IH.
    + apply agree_refl.
    + reflexivity.
Qed.

(** A loop that returns although one of its rows raises on every pass
    has ended before that row, and does not depend on what follows. *)
Lemma for_rows_unreached (row : list string) (e : exn)
  (pre post post' : list (list string)) :
  (forall st, loop_body st row = Raise e) ->
  forall st st',
    for_rows st (pre ++ row :: post) = Ok st' ->
    for_rows st (pre ++ post') = Ok st'.
Proof.
  intros Hrow. induction pre as [|r pre IH]; intros st st' H; cbn in H.
  - rewrite Hrow in H. discriminate.
  - cbn. destruct (loop_body st r) as [[[|] st1]|e1].
    + now apply IH.
    + exact H.
    + discriminate.
Qed.

(** X9: a row only touches its own channel: the update of the document
    without an accepted row returns as well, and gives the other two
    channels the same series, points and cumulative sums alike. *)
Theorem other_channels_are_untouched (DOMAIN SENSOR_NAME : string)
  (hass hass' : recorder) (pre post : list (list string))
  (row : list string) (dt : datetime.t) (flow : string) (q : float.t) :
  accepted row dt ->
  nth_error row 6 = Some flow ->
  quantity row = Ok q ->
  update DOMAIN SENSOR_NAME hass (pre ++ row :: post) = (hass', Ok tt) ->
  exists st st',
    hass' = hass ++ emitted DOMAIN SENSOR_NAME st
    /\ update DOMAIN SENSOR_NAME hass (pre ++ post)
       = (hass ++ emitted DOMAIN SENSOR_NAME st', Ok tt)
    /\ forall ch,
        ch <> channel_of flow (datetime.hour dt) ->
        series ch st = series ch st'.
Proof.
  intros Hacc H6 Hq H.
  destruct (update_returns _ _ _ _ _ H) as (st & Hst & ->).
  destruct (pytz.overflows dt) eqn:Hr.
  { exists st, st. split; [reflexivity|]. split; [|reflexivity].
    apply update_emitted.
    apply (for_rows_unreached row OverflowError pre post post); [|exact Hst].
    intros s. now apply loop_body_OverflowError with dt. }
  assert (Hrow : forall s,
             loop_body s row
             = Ok (Continue,
                   accumulate (channel_of flow (datetime.hour dt))
                     (bucket dt) q s)).
  { intros s. now rewrite (loop_body_in_range s row dt flow Hacc H6 Hr), Hq. }
  destruct (for_rows initial (pre ++ post)) as [st'|e] eqn:E.
  - exists st, st'. split; [reflexivity|]. split.
    + now apply update_emitted.
    + intros ch Hn.
      pose proof (for_rows_without ch _ _ _ row pre post Hrow Hn initial)
        as Ha.
      rewrite Hst, E in Ha. apply Ha.
  - exfalso.
    assert (Hn : Solar <> channel_of flow (datetime.hour dt)
                 \/ Day <> channel_of flow (datetime.hour dt))
      by (destruct (channel_of flow (datetime.hour dt));
          (left; discriminate) || (right; discriminate)).
    destruct Hn as [Hn|Hn];
      pose proof (for_rows_without _ _ _ _ row pre post Hrow Hn initial)
        as Ha;
      rewrite Hst, E in Ha; exact Ha.
Qed.

Lemma other_channels_are_untouched_witness :
  accepted solar_row (datetime.mk 2023 3 15 22 15 0 0 None)
  /\ nth_error solar_row 6 = Some "I"
  /\ quantity solar_row = Ok f2_0
  /\ update "meridian_energy" "Meridian Energy" []
       ([hdr; day_row_a; estimate_row; day_row_b; night_row]
          ++ solar_row :: [summary_row])
     = (sample_recorder, Ok tt)
  /\ exists st st',
      sample_recorder = [] ++ emitted "meridian_energy" "Meridian Energy" st
      /\ update "meridian_energy" "Meridian Energy" []
           ([hdr; day_row_a; estimate_row; day_row_b; night_row]
              ++ [summary_row])
         = ([] ++ emitted "meridian_energy" "Meridian Energy" st', Ok tt)
      /\ forall ch, ch <> channel_of "I" 22 -> series ch st = series ch st'.
Proof.
  assert (Hacc : accepted solar_row (datetime.mk 2023 3 15 22 15 0 0 None))
    by accepted_row.
  assert (Hq : quantity solar_row = Ok f2_0) by (vm_compute; reflexivity).
  assert (Hu : update "meridian_energy" "Meridian Energy" []
                 ([hdr; day_row_a; estimate_row; day_row_b; night_row]
                    ++ solar_row :: [summary_row])
               = (sample_recorder, Ok tt)) by (vm_compute; reflexivity).
  split; [exact Hacc|]. split; [reflexivity|]. split; [exact Hq|].
  split; [exact Hu|].
  exact (other_channels_are_untouched "meridian_energy" "Meridian Energy"
           [] sample_recorder
           [hdr; day_row_a; estimate_row; day_row_b; night_row]
           [summary_row] solar_row _ "I" f2_0 Hacc eq_refl Hq Hu).
Defined.

(** ** A quantity that is not a number *)

Lemma add_nan_r (x : float.t) : float.add x S754_nan = S754_nan.
Proof. destruct x; reflexivity. Qed.

Lemma for_rows_nan (ch : channel) (rows : list (list string)) :
  forall st st',
    running_sum ch st = S754_nan ->
    for_rows st rows = Ok st' ->
    exists l,
      series ch st' = series ch st ++ l
      /\ Forall (fun p => StatisticData.sum p = S754_nan) l.
Proof.
  induction rows as [|r rows IH]; intros st st' Hn H; cbn in H.
  - inversion H. exists []. now rewrite app_nil_r.
  - destruct (loop_body st r) as [[c st1]|e] eqn:E; [|discriminate].
    apply loop_body_cases in E.
    destruct E as [(-> & -> & _)|[(-> & -> & _)|E]].
    + inversion H. exists []. now rewrite app_nil_r.
    + exact (IH st st' Hn H).
    + destruct E as (dt & flow & q & -> & _ & _ & _ & _ & ->).
      destruct (IH (accumulate (channel_of flow (datetime.hour dt))
                      (bucket dt) q st) st') as (l & Hl & Hf);
        [|exact H|].
      * rewrite running_sum_accumulate.
        destruct (channel_eqb _ ch) eqn:Ec; [|exact Hn].
        apply channel_eqb_eq in Ec. subst ch. now rewrite Hn.
      * rewrite Hl, series_accumulate.
        destruct (channel_eqb _ ch) eqn:Ec; [|now exists l].
        apply channel_eqb_eq in Ec. subst ch.
        rewrite Hn, <- app_assoc. eexists. split; [reflexivity|].
        now constructor.
Qed.

(** X10: [float] takes "nan" for a number and the loop has no test for
    it: from an accepted row whose quantity is NaN on, every point of its
    channel carries NaN as its cumulative sum. *)
Theorem nan_quantity_poisons_channel (DOMAIN SENSOR_NAME : string)
  (hass hass' : recorder) (pre post : list (list string))
  (row : list string) (dt : datetime.t) (flow : string) :
  Forall (fun r => 2 <= List.length r) pre ->
  accepted row dt ->
  nth_error row 6 = Some flow ->
  quantity row = Ok S754_nan ->
  update DOMAIN SENSOR_NAME hass (pre ++ row :: post) = (hass', Ok tt) ->
  exists st l1 l2,
    hass' = hass ++ emitted DOMAIN SENSOR_NAME st
    /\ series (channel_of flow (datetime.hour dt)) st
       = l1 ++ StatisticData.mk (bucket dt) S754_nan :: l2
    /\ Forall (fun p => StatisticData.sum p = S754_nan) l2.
Proof.
  intros Hpre Hacc H6 Hq H.
  destruct (update_returns _ _ _ _ _ H) as (st & Hst & ->).
  set (ch := channel_of flow (datetime.hour dt)).
  rewrite (for_rows_app pre _ Hpre) in Hst.
  destruct (for_rows initial pre) as [st0|e]; [|discriminate].
  cbn [bind for_rows] in Hst.
  destruct (pytz.overflows dt) eqn:Hr.
  { rewrite (loop_body_OverflowError st0 row dt Hacc Hr) in Hst.
    discriminate. }
  rewrite (loop_body_in_range st0 row dt flow Hacc H6 Hr), Hq in Hst.
  cbn [bind] in Hst. fold ch in Hst.
  destruct (for_rows_nan ch post
              (accumulate ch (bucket dt) S754_nan st0) st)
    as (l2 & Hl & Hf); [|exact Hst|].
  - rewrite running_sum_accumulate.
    replace (channel_eqb ch ch) with true by now destruct ch.
    apply add_nan_r.
  - exists st, (series ch st0), l2. split; [reflexivity|].
    split; [|exact Hf].
    rewrite Hl, series_accumulate.
    replace (channel_eqb ch ch) with true by now destruct ch.
    now rewrite add_nan_r, <- app_assoc.
Qed.

Lemma nan_quantity_poisons_channel_witness :
  Forall (fun r => 2 <= List.length r) [hdr; day_row_a]
  /\ accepted nan_row (datetime.mk 2023 3 15 11 0 0 0 None)
  /\ nth_error nan_row 6 = Some "E"
  /\ quantity nan_row = Ok S754_nan
  /\ update "meridian_energy" "Meridian Energy" []
       ([hdr; day_row_a] ++ nan_row :: [day_row_b; night_row])
     = ([(solarMetadata "meridian_energy" "Meridian Energy", []);
         (dayMetadata "meridian_energy" "Meridian Energy",
          [StatisticData.mk (at_hour 10) f1_0;
           StatisticData.mk (at_hour 11) S754_nan;
           StatisticData.mk (at_hour 10) S754_nan]);
         (nightMetadata "meridian_energy" "Meridian Energy",
          [StatisticData.mk (at_hour 22) f1_5])], Ok tt)
  /\ exists st l1 l2,
      series (channel_of "E" 11) st
      = l1 ++ StatisticData.mk (at_hour 11) S754_nan :: l2
      /\ Forall (fun p => StatisticData.sum p = S754_nan) l2.
Proof.
  assert (Hpre : Forall (fun r => 2 <= List.length r) [hdr; day_row_a])
    by (repeat constructor; cbn; lia).
  assert (Hacc : accepted nan_row (datetime.mk 2023 3 15 11 0 0 0 None))
    by accepted_row.
  assert (Hq : quantity nan_row = Ok S754_nan) by (vm_compute; reflexivity).
  assert (Hu : update "meridian_energy" "Meridian Energy" []
                 ([hdr; day_row_a] ++ nan_row :: [day_row_b; night_row])
               = ([(solarMetadata "meridian_energy" "Meridian Energy", []);
                   (dayMetadata "meridian_energy" "Meridian Energy",
                    [StatisticData.mk (at_hour 10) f1_0;
                     StatisticData.mk (at_hour 11) S754_nan;
                     StatisticData.mk (at_hour 10) S754_nan]);
                   (nightMetadata "meridian_energy" "Meridian Energy",
                    [StatisticData.mk (at_hour 22) f1_5])], Ok tt))
    by (vm_compute; reflexivity).
  split; [exact Hpre|]. split; [exact Hacc|]. split; [reflexivity|].
  split; [exact Hq|]. split; [exact Hu|].
  destruct (nan_quantity_poisons_channel _ _ _ _ _ _ _ _ _
              Hpre Hacc eq_refl Hq Hu) as (st & l1 & l2 & _ & Hs & Hf).
  exists st, l1, l2. split; [exact Hs|exact Hf].
Defined.

(** ** Where the points come from *)

Lemma accepted_unique (row : list string) (dt dt' : datetime.t) :
  accepted row dt -> accepted row dt' -> dt = dt'.
Proof.
  intros (_ & _ & _ & (ts & H9 & Hts) & _) (_ & _ & _ & (ts' & H9' & Hts') & _).
  congruence.
Qed.

Lemma accumulate_changes (ch : channel) (b : datetime.t) (q : float.t)
  (st : locals) :
  accumulate ch b q st <> st.
Proof.
  intros H. apply (f_equal (fun s => List.length (series ch s))) in H.
  rewrite series_accumulate in H.
  replace (channel_eqb ch ch) with true in H by now destruct ch.
  rewrite length_app in H. cbn in H. lia.
Qed.

(** A pass that returns without adding a point has not met an accepted
    row. *)
Lemma loop_body_unchanged (st : locals) (row : list string) (c : control)
  (dt : datetime.t) :
  loop_body st row = Ok (c, st) -> ~ accepted row dt.
Proof.
  intros H Hacc.
  destruct (getitem_lt row 6) as [flow E6].
  { destruct Hacc as (Hlen & _). lia. }
  apply getitem_Ok in E6.
  pose proof (loop_body_localized st row dt (c, st) Hacc H) as Hr.
  rewrite (loop_body_in_range st row dt flow Hacc E6 Hr) in H.
  destruct (quantity row) as [q|e]; [|discriminate].
  cbn [bind] in H. inversion H as [[Hc Hs]].
  exact (accumulate_changes _ _ _ _ Hs).
Qed.

Lemma for_rows_drawn (ch : channel) (rows : list (list string)) :
  forall st st',
    for_rows st rows = Ok st' ->
    exists l,
      series ch st' = series ch st ++ l
      /\ drawn ch rows (running_sum ch st) l.
Proof.
  induction rows as [|r rows IH]; intros st st' H; cbn in H.
  - inversion H. exists []. rewrite app_nil_r. split; [reflexivity|].
    constructor.
  - destruct (loop_body st r) as [[c st1]|e] eqn:E; [|discriminate].
    pose proof E as E'. apply loop_body_cases in E'.
    destruct E' as [(-> & -> & Hlt)|[(-> & -> & Hge)|E']].
    + inversion H. exists []. rewrite app_nil_r. split; [reflexivity|].
      now apply drawn_stop.
    + destruct (IH st st' H) as (l & Hl & Hd). exists l.
      split; [exact Hl|]. apply drawn_skip; [exact Hge| |exact Hd].
      intros dt flow Hacc _. exfalso.
      exact (loop_body_unchanged st r Continue dt E Hacc).
    + destruct E' as (dt & flow & q & -> & Hge & Hacc & H6 & Hq & ->).
      destruct (IH _ st' H) as (l & Hl & Hd).
      rewrite series_accumulate in Hl.
      rewrite running_sum_accumulate in Hd.
      destruct (channel_eqb _ ch) eqn:Ec.
      * apply channel_eqb_eq in Ec.
        exists (StatisticData.mk (bucket dt)
                  (float.add (running_sum ch st) q) :: l).
        rewrite Hl, <- Ec, <- app_assoc. split; [reflexivity|].
        rewrite <- Ec in Hd.
        now apply drawn_take with flow.
      * exists l. split; [exact Hl|].
        apply drawn_skip; [exact Hge| |exact Hd].
        intros dt' flow' Hacc' H6' Heq.
        rewrite (accepted_unique r dt' dt Hacc' Hacc) in Heq.
        assert (flow' = flow) by congruence. subst flow' ch.
        now destruct (channel_of flow (datetime.hour dt)).
Qed.

Lemma drawn_unique (ch : channel) (rows : list (list string)) (s : float.t)
  (l : list StatisticData.t) :
  drawn ch rows s l -> forall l', drawn ch rows s l' -> l = l'.
Proof.
  induction 1 as [s|row rows s Hlt|row rows s l Hge Hno _ IH
                  |row rows s l dt flow q Hacc H6 Hch Hq _ IH];
    intros l' H'; inversion H'; subst; try reflexivity; try lia.
  - match goal with Ha : accepted _ _ |- _ => destruct Ha as (Hlen & _) end.
    lia.
  - now apply IH.
  - exfalso. eapply Hno; eauto.
  - destruct Hacc as (Hlen & _). lia.
  - exfalso. match goal with Hn : forall _ _, accepted _ _ -> _ |- _ =>
      exact (Hn dt flow Hacc H6 eq_refl) end.
  - match goal with Ha : accepted row ?d |- _ =>
      pose proof (accepted_unique row d dt Ha Hacc) end.
    subst. f_equal; [congruence|]. apply IH.
    match goal with Hd : drawn _ rows (float.add s ?q') l0 |- _ =>
      replace q with q' by congruence; exact Hd end.
Qed.

(** X11: each series handed to the recorder is exactly what its channel
    draws from the document: one point for every accepted row of the
    channel before the first line of fewer than two fields, in the order
    of the rows, at the row's bucket and with the sum before it (0 at
    first) plus the row's quantity; nothing else. *)
Theorem series_are_drawn_from_the_rows (DOMAIN SENSOR_NAME : string)
  (hass hass' : recorder) (csv_file : list (list string)) :
  update DOMAIN SENSOR_NAME hass csv_file = (hass', Ok tt) ->
  exists st,
    hass' = hass ++ emitted DOMAIN SENSOR_NAME st
    /\ forall ch,
        drawn ch csv_file float.zero (series ch st)
        /\ forall l, drawn ch csv_file float.zero l -> l = series ch st.
Proof.
  intros H. destruct (update_returns _ _ _ _ _ H) as (st & Hst & ->).
  exists st. split; [reflexivity|]. intros ch.
  destruct (for_rows_drawn ch csv_file initial st Hst) as (l & Hl & Hd).
  assert (Hs : series ch st = l) by (rewrite Hl; now destruct ch).
  assert (Hd0 : drawn ch csv_file float.zero (series ch st)).
  { rewrite Hs. now destruct ch. }
  split; [exact Hd0|].
  intros l' Hl'. symmetry. exact (drawn_unique ch csv_file _ _ Hd0 l' Hl').
Qed.

Lemma series_are_drawn_from_the_rows_witness :
  update "meridian_energy" "Meridian Energy" [] sample_document
  = (sample_recorder, Ok tt)
  /\ exists st,
      sample_recorder = [] ++ emitted "meridian_energy" "Meridian Energy" st
      /\ forall ch,
          drawn ch sample_document float.zero (series ch st)
          /\ forall l,
              drawn ch sample_document float.zero l -> l = series ch st.
Proof.
  assert (Hu : update "meridian_energy" "Meridian Energy" [] sample_document
               = (sample_recorder, Ok tt)) by (vm_compute; reflexivity).
  split; [exact Hu|].
  exact (series_are_drawn_from_the_rows "meridian_energy" "Meridian Energy"
           [] sample_recorder sample_document Hu).
Defined.
